(** * Server monitoring engine: model and verification

    Shallow embedding of the Go package [server] (MonitorServers and its
    helpers): the polling cycle over the configured servers, the metric
    fetchers, the notification de-duplication state and the uptime
    normaliser.

    Conventions of the model
    - Go [int] and [time.Duration] are 64-bit; they are [Z] here, with the
      wrap-around of the arithmetic written out ([wrap64]).
    - Go [float64] is Rocq's primitive binary64 [float].
    - Go strings are byte strings: [string].
    - Every effect of the package is recorded in a [World]: the HTTP GET
      requests issued, the SQL statements issued, the notifications handed to
      the sender and the package-level map [lastStatus].  What the outside
      answers (HTTP replies, the settings row, the wall clock) and the
      library functions left abstract (JSON decoding into the types of
      package [models], [%.2f] formatting) are an [Env].
    - Log output ([fmt.Printf]) is not modelled. *)

From Stdlib Require Import ZArith Lia Ascii String List Bool.
From Stdlib Require Import Floats.PrimFloat.
From stdpp Require Import base option list strings gmap.

Local Open Scope string_scope.
Local Open Scope Z_scope.
Local Open Scope list_scope.

(* ------------------------------------------------------------------------- *)
(** ** Go [strings] helpers *)

Module GoStrings.

(** [strings.HasPrefix s p]. *)
Fixpoint HasPrefix (s p : string) : bool :=
  match p, s with
  | EmptyString, _ => true
  | String _ _, EmptyString => false
  | String a p', String b s' => if Ascii.eqb a b then HasPrefix s' p' else false
  end.

(** [strings.HasSuffix s p], through the reversed strings. *)
Fixpoint rev (s : string) : string :=
  match s with
  | EmptyString => EmptyString
  | String c r => rev r +:+ String c EmptyString
  end.

Definition HasSuffix (s p : string) : bool := HasPrefix (rev s) (rev p).

(** [strings.TrimSuffix s suffix]: [s] without the trailing [suffix], or [s]
    itself when it does not end with it. *)
Definition TrimSuffix (s suffix : string) : string :=
  if HasSuffix s suffix
  then substring 0 (String.length s - String.length suffix) s
  else s.

(** [strings.Trim s cutset] for a one-byte cutset [c]: all leading and
    trailing bytes equal to [c] removed. *)
Fixpoint TrimLeft1 (s : string) (c : ascii) : string :=
  match s with
  | EmptyString => EmptyString
  | String a r => if Ascii.eqb a c then TrimLeft1 r c else s
  end.

Definition Trim1 (s : string) (c : ascii) : string :=
  rev (TrimLeft1 (rev (TrimLeft1 s c)) c).

(** [strings.ReplaceAll s old new] for a non-empty [old] (both call sites
    pass a literal): the non-overlapping occurrences of [old], found from
    left to right, are replaced by [new].  [skip] counts the bytes of a
    matched occurrence still to be dropped. *)
Fixpoint replace_from (old new s : string) (skip : nat) : string :=
  match s with
  | EmptyString => EmptyString
  | String c r =>
      match skip with
      | S k => replace_from old new r k
      | O =>
          if HasPrefix s old
          then new +:+ replace_from old new r (String.length old - 1)
          else String c (replace_from old new r 0)
      end
  end.

Definition ReplaceAll (s old new : string) : string := replace_from old new s 0.

(** [strings.Split s sep] for a non-empty [sep]: the pieces between the
    non-overlapping occurrences of [sep], found from left to right.  [cur] is
    the piece being collected, reversed. *)
Fixpoint split_from (sep s : string) (cur : string) (skip : nat) : list string :=
  match s with
  | EmptyString => [rev cur]
  | String c r =>
      match skip with
      | S k => split_from sep r cur k
      | O =>
          if HasPrefix s sep
          then rev cur :: split_from sep r EmptyString (String.length sep - 1)
          else split_from sep r (String c cur) 0
      end
  end.

Definition Split (s sep : string) : list string := split_from sep s EmptyString 0.

(** [strings.Contains s sub]. *)
Fixpoint Contains (s sub : string) : bool :=
  HasPrefix s sub ||
  match s with
  | EmptyString => false
  | String _ r => Contains r sub
  end.

End GoStrings.

Import GoStrings.

(* ------------------------------------------------------------------------- *)
(** ** Go [fmt.Sscanf], for the formats of this package

    The three formats used are built from the verb [%d], single blanks and
    literal bytes.  The input is read byte by byte, which is Go's rune by
    rune reading on ASCII input.  A result [None] is [err != nil]. *)

Module GoFmt.

Definition newline : ascii := "010".

(** [isSpace]: tab, line feed, vertical tab, form feed, carriage return and
    blank. *)
Definition isSpace (c : ascii) : bool :=
  let n := nat_of_ascii c in
  ((9 <=? n) && (n <=? 13))%nat || (n =? 32)%nat.

Definition isDigit (c : ascii) : bool :=
  let n := nat_of_ascii c in ((48 <=? n) && (n <=? 57))%nat.

Definition isSign (c : ascii) : bool :=
  Ascii.eqb c "+" || Ascii.eqb c "-".

Definition digit_value (c : ascii) : Z := Z.of_nat (nat_of_ascii c) - 48.

(** [ss.SkipSpace] with [nlIsSpace = false]: blanks are dropped, a line feed
    is the error "unexpected newline". *)
Fixpoint SkipSpace (s : string) : option string :=
  match s with
  | EmptyString => Some s
  | String c r =>
      if Ascii.eqb c newline then None
      else if isSpace c then SkipSpace r
      else Some s
  end.

(** The loop [for s.accept(digits) {}] of [scanNumber]: the value of the
    digits read so far is [acc]; returns the value and the unread input. *)
Fixpoint accept_digits (s : string) (acc : Z) : Z * string :=
  match s with
  | EmptyString => (acc, s)
  | String c r =>
      if isDigit c then accept_digits r (10 * acc + digit_value c)
      else (acc, s)
  end.

Definition int64_min : Z := - 2 ^ 63.
Definition int64_max : Z := 2 ^ 63 - 1.

(** [scanInt] for the verb [d] and a 64-bit destination: blanks, an optional
    sign, at least one decimal digit; [strconv.ParseInt] rejects a value
    outside the 64-bit range. *)
Definition scanInt (s : string) : option (Z * string) :=
  match SkipSpace s with
  | None => None
  | Some EmptyString => None                       (* io.EOF *)
  | Some (String c r as s1) =>
      let '(neg, s2) :=
        if isSign c then (Ascii.eqb c "-", r) else (false, s1) in
      match s2 with
      | EmptyString => None                        (* io.EOF *)
      | String d _ =>
          if isDigit d then
            let '(v, rest) := accept_digits s2 0 in
            let i := if neg then - v else v in
            if ((int64_min <=? i) && (i <=? int64_max))%Z then Some (i, rest)
            else None                              (* value out of range *)
          else None                                (* expected integer *)
      end
  end.

(** The blank of a format: the input is at its end, or has at least one
    blank, and all blanks up to a line feed are dropped. *)
Fixpoint skip_blanks (s : string) : string :=
  match s with
  | EmptyString => s
  | String c r =>
      if isSpace c && negb (Ascii.eqb c newline) then skip_blanks r else s
  end.

Definition match_blank (s : string) : option string :=
  match s with
  | EmptyString => Some s
  | String c r =>
      if Ascii.eqb c newline then None
      else if isSpace c then Some (skip_blanks r)
      else None
  end.

(** [doScanf]: the format is walked from left to right; [%d] scans one
    integer (after [SkipSpace]), a run of blanks is one blank, any other
    byte must be the next input byte.  Input left over at the end of the
    format is not an error.  Formats with other verbs, widths or line feeds
    are outside this model. *)
Fixpoint doScanf (format input : string) : option (list Z) :=
  match format with
  | EmptyString => Some []
  | String f fr =>
      if Ascii.eqb f "%" then
        match fr with
        | String "d" fr' =>
            match SkipSpace input with
            | None => None
            | Some input1 =>
                match scanInt input1 with
                | None => None
                | Some (v, rest) =>
                    match doScanf fr' rest with
                    | None => None
                    | Some vs => Some (v :: vs)
                    end
                end
            end
        | _ => None
        end
      else if Ascii.eqb f newline then None
      else if isSpace f then
        match fr with
        | String f' _ =>
            if isSpace f' then doScanf fr input
            else match match_blank input with
                 | None => None
                 | Some rest => doScanf fr rest
                 end
        | EmptyString =>
            match match_blank input with
            | None => None
            | Some rest => doScanf fr rest
            end
        end
      else
        match input with
        | EmptyString => None                      (* unexpected EOF *)
        | String c ir => if Ascii.eqb c f then doScanf fr ir else None
        end
  end.

(** [fmt.Sscanf(str, format, ...)]: argument order as in Go. *)
Definition Sscanf (str format : string) : option (list Z) := doScanf format str.

End GoFmt.

Import GoFmt.

(* ------------------------------------------------------------------------- *)
(** ** Go [time]: durations, instants and the layout [2.1 15:04] *)

Module GoTime.

(** Two's complement wrap-around of 64-bit arithmetic. *)
Definition wrap64 (z : Z) : Z := (z + 2 ^ 63) mod 2 ^ 64 - 2 ^ 63.

Definition mul64 (a b : Z) : Z := wrap64 (a * b).
Definition add64 (a b : Z) : Z := wrap64 (a + b).
Definition neg64 (a : Z) : Z := wrap64 (- a).

(** [time.Duration] is an [int64] count of nanoseconds. *)
Definition Second : Z := 1000000000.
Definition Minute : Z := 60 * Second.
Definition Hour : Z := 60 * Minute.

(** An instant: nanoseconds since the Unix epoch, and the location it is
    shown in, given as the offset from UTC (in seconds) in effect at a Unix
    second. *)
Record Time := mkTime { unixNano : Z; location : Z -> Z }.

(** [t.Add(d)]. *)
Definition Add (t : Time) (d : Z) : Time :=
  {| unixNano := unixNano t + d; location := location t |}.

(** Civil date (month, day) of a day number counted from 1970-01-01, in the
    proleptic Gregorian calendar. *)
Definition civil (days : Z) : Z * Z :=
  let z := days + 719468 in
  let doe := z mod 146097 in
  let yoe := (doe - doe / 1460 + doe / 36524 - doe / 146096) / 365 in
  let doy := doe - (365 * yoe + yoe / 4 - yoe / 100) in
  let mp := (5 * doy + 2) / 153 in
  let d := doy - (153 * mp + 2) / 5 + 1 in
  let m := if (mp <? 10)%Z then mp + 3 else mp - 9 in
  (m, d).

Definition digit_char (n : Z) : ascii := ascii_of_nat (Z.to_nat (48 + n)).

(** [appendInt(b, x, width)] for [0 <= x < 100] and width 0 or 2. *)
Definition appendInt (x : Z) (width : Z) : string :=
  if ((x <? 10) && (width <? 2))%Z then String (digit_char x) EmptyString
  else String (digit_char (x / 10)) (String (digit_char (x mod 10)) EmptyString).

(** [t.Format("2.1 15:04")]: day of the month, a dot, month number, a blank,
    hour on two digits, a colon, minute on two digits, in the location of
    [t]. *)
Definition Format_2_1_15_04 (t : Time) : string :=
  let sec := unixNano t / Second in
  let loc := sec + location t sec in
  let '(month, day) := civil (loc / 86400) in
  let rem := loc mod 86400 in
  appendInt day 0 +:+ "." +:+ appendInt month 0 +:+ " " +:+
  appendInt (rem / 3600) 2 +:+ ":" +:+ appendInt (rem mod 3600 / 60) 2.

Definition UTC : Z -> Z := fun _ => 0.

End GoTime.

Import GoTime.

(* ------------------------------------------------------------------------- *)
(** ** Data of package [models] and the outside world *)

Definition float64 : Type := float.
Bind Scope float_scope with float64.

(** [sql.NullString]. *)
Record NullString := { NullString_String : string; Valid : bool }.

(** Package [models] is not among the sources at hand: the records below
    carry the fields this package reads or writes.

    The fields of [models.Server] the package reads. *)
Record Server := {
  ID : Z;
  Name : string;
  Monitoring : bool;
  MonitoringURL : NullString;
  Online : bool
}.

(** The decoded monitoring API answers. *)
Record CPUResponse := { cpu_Total : float64 }.
Record MemoryResponse := { mem_Percent : float64 }.
Record FSEntry := { fs_Percent : float64 }.
Definition FSResponse : Type := list FSEntry.
Record GPUResponse := { gpu_Proc : float64 }.
Record Sensor := { sensor_Value : float64 }.
Record TemperatureResponse := { Composite : list Sensor }.
Record UptimeResponse := { uptime_Value : string }.

Definition StatusOK : Z := 200.

(** The outcome of [client.Get]: an error, or a response with its status
    code and body ([None]: reading the body fails). *)
Inductive HttpReply :=
| TransportError
| Response (StatusCode : Z) (Body : option string).

(** What the outside answers.  The HTTP reply and the clock may depend on the
    requests issued so far. *)
Record Env := {
  http_get : list string -> string -> HttpReply;
  settings_row : option string;        (* [None]: the settings query fails *)
  time_Now : list string -> Time;
  json_cpu : string -> option CPUResponse;
  json_mem : string -> option MemoryResponse;
  json_fs : string -> option FSResponse;
  json_gpu : string -> option GPUResponse;
  json_temp : string -> option TemperatureResponse;
  json_uptime : string -> option UptimeResponse;
  sprintf_2f : float64 -> string       (* [fmt.Sprintf("%.2f", x)] *)
}.

(** The SQL statements the package issues, with their arguments. *)
Inductive SqlStmt :=
| SelectNotificationText
| UpdateServer (online : bool) (cpuUsage ramUsage diskUsage gpuUsage temp : float64)
    (uptime : string) (id : Z)
| InsertServerHistory (serverId : Z) (online : bool)
    (cpuUsage ramUsage diskUsage gpuUsage temp : string).

(** The effects of the package. *)
Record World := mkWorld {
  requests : list string;              (* URLs requested with GET, oldest first *)
  statements : list SqlStmt;           (* SQL statements issued, oldest first *)
  notifications : list string;         (* messages given to the sender *)
  lastStatus : gmap Z bool             (* [notificationState.lastStatus] *)
}.

Definition emptyWorld : World := mkWorld [] [] [] ∅.

(** ** A state monad over [World] *)

Definition M (A : Type) : Type := World -> A * World.

Definition ret {A} (a : A) : M A := fun w => (a, w).

Definition bind {A B} (m : M A) (k : A -> M B) : M B :=
  fun w => let '(a, w') := m w in k a w'.

Notation "x <- m ;; k" := (bind m (fun x => k))
  (at level 100, m at next level, right associativity).
Notation "m ;; k" := (bind m (fun _ => k))
  (at level 100, right associativity).

Fixpoint forEach {A} (body : A -> M unit) (l : list A) : M unit :=
  match l with
  | [] => ret tt
  | x :: r => body x ;; forEach body r
  end.

Definition zero : float64 := 0%float.

(* ------------------------------------------------------------------------- *)
(** ** The package *)

Section Package.

Variable E : Env.

(** [client.Get(url)]. *)
Definition client_Get (url : string) : M HttpReply := fun w =>
  (http_get E (requests w) url,
   mkWorld (requests w ++ [url]) (statements w) (notifications w) (lastStatus w)).

(** [db.ExecContext] / [db.QueryRow]: the statement is issued. *)
Definition db_Exec (q : SqlStmt) : M unit := fun w =>
  (tt, mkWorld (requests w) (statements w ++ [q]) (notifications w) (lastStatus w)).

(** [notifSender.SendNotifications(message)]. *)
Definition SendNotifications (message : string) : M unit := fun w =>
  (tt, mkWorld (requests w) (statements w) (notifications w ++ [message]) (lastStatus w)).

(** [json.NewDecoder(resp.Body).Decode(&v)]. *)
Definition Decode {A} (dec : string -> option A) (body : option string) : option A :=
  match body with
  | None => None
  | Some b => dec b
  end.

Definition shouldSendNotification (serverID : Z) (online : bool) : M bool := fun w =>
  match lastStatus w !! serverID with
  | Some last =>
      if negb (Bool.eqb last online)
      then (true, mkWorld (requests w) (statements w) (notifications w)
                    (<[serverID := online]> (lastStatus w)))
      else (false, w)
  | None =>
      (true, mkWorld (requests w) (statements w) (notifications w)
               (<[serverID := online]> (lastStatus w)))
  end.

Definition fetchCPUUsage (baseURL : string) : M (bool * float64) :=
  cpuResp <- client_Get (baseURL +:+ "/api/4/cpu") ;;
  match cpuResp with
  | TransportError => ret (false, zero)
  | Response code body =>
      if negb (Z.eqb code StatusOK) then ret (false, zero)
      else match Decode (json_cpu E) body with
           | None => ret (false, zero)
           | Some cpuData => ret (true, cpu_Total cpuData)
           end
  end.

Definition fetchMemoryUsage (baseURL : string) : M (bool * float64) :=
  memResp <- client_Get (baseURL +:+ "/api/4/mem") ;;
  match memResp with
  | TransportError => ret (false, zero)
  | Response code body =>
      if negb (Z.eqb code StatusOK) then ret (false, zero)
      else match Decode (json_mem E) body with
           | None => ret (false, zero)
           | Some memData => ret (true, mem_Percent memData)
           end
  end.

Definition fetchDiskUsage (baseURL : string) : M (bool * float64) :=
  fsResp <- client_Get (baseURL +:+ "/api/4/fs") ;;
  match fsResp with
  | TransportError => ret (false, zero)
  | Response code body =>
      if negb (Z.eqb code StatusOK) then ret (false, zero)
      else match Decode (json_fs E) body with
           | None => ret (false, zero)
           | Some fsData =>
               match fsData with
               | first :: _ => ret (true, fs_Percent first)
               | [] => ret (true, zero)
               end
           end
  end.

Definition fetchGPUUsage (baseURL : string) : M (bool * float64) :=
  gpuResp <- client_Get (baseURL +:+ "/api/4/gpu") ;;
  match gpuResp with
  | TransportError => ret (true, zero)
  | Response code body =>
      if negb (Z.eqb code StatusOK) then ret (true, zero)
      else match Decode (json_gpu E) body with
           | None => ret (true, zero)
           | Some gpuData => ret (true, gpu_Proc gpuData)
           end
  end.

Definition fetchTemperature (baseURL : string) : M (bool * float64) :=
  tempResp <- client_Get (baseURL +:+ "/api/4/sensors/label/value/Composite") ;;
  match tempResp with
  | TransportError => ret (true, zero)
  | Response code body =>
      if negb (Z.eqb code StatusOK) then ret (true, zero)
      else match Decode (json_temp E) body with
           | None => ret (true, zero)
           | Some tempData =>
               match Composite tempData with
               | first :: _ => ret (true, sensor_Value first)
               | [] => ret (true, zero)
               end
           end
  end.

(** The part of [formatUptime] after the day count is known: the time of
    day is scanned, the duration is computed in 64-bit nanoseconds and
    subtracted from [now]. *)
Definition formatSince (now : Time) (uptimeStr : string) (days : Z) (timeStr : string)
  : string :=
  match Sscanf timeStr "%d:%d:%d" with
  | Some [hours; minutes; seconds] =>
      let duration :=
        add64 (add64 (add64 (mul64 (mul64 days 24) Hour) (mul64 hours Hour))
                     (mul64 minutes Minute))
              (mul64 seconds Second) in
      let startTime := Add now (neg64 duration) in
      Format_2_1_15_04 startTime
  | _ => uptimeStr
  end.

(** [formatUptime], with the reading of [time.Now()] as first argument. *)
Definition formatUptime (now : Time) (uptimeStr : string) : string :=
  match Split uptimeStr ", " with
  | [part0; part1] =>
      match Sscanf part0 "%d days" with
      | Some [days] => formatSince now uptimeStr days part1
      | _ =>
          match Sscanf part0 "%d day" with
          | Some [days] => formatSince now uptimeStr days part1
          | _ => uptimeStr
          end
      end
  | [part0] => formatSince now uptimeStr 0 part0
  | _ => uptimeStr
  end.

Definition time_now : M Time := fun w => (time_Now E (requests w), w).

Definition fetchUptime (baseURL : string) : M string :=
  uptimeResp <- client_Get (baseURL +:+ "/api/4/uptime") ;;
  match uptimeResp with
  | TransportError => ret ""
  | Response code body =>
      if negb (Z.eqb code StatusOK) then ret ""
      else match body with
           | None => ret ""
           | Some uptimeBytes =>
               let uptimeStr := Trim1 uptimeBytes "034" in
               now <- time_now ;;
               match json_uptime E uptimeBytes with
               | Some uptimeData =>
                   if negb (String.eqb (uptime_Value uptimeData) "")
                   then ret (formatUptime now (uptime_Value uptimeData))
                   else ret (formatUptime now uptimeStr)
               | None => ret (formatUptime now uptimeStr)
               end
           end
  end.

(** The message of [sendStatusChangeNotification]. *)
Definition statusMessage (name : string) (online : bool) (template : string) : string :=
  let status := if online then "online" else "offline" in
  let message := ReplaceAll template "!name" name in
  ReplaceAll message "!status" status.

Definition sendStatusChangeNotification (server : Server) (online : bool)
    (template : string) : M unit :=
  SendNotifications (statusMessage (Name server) online template).

Definition updateServerStatus (serverID : Z) (online : bool)
    (cpuUsage ramUsage diskUsage gpuUsage temp : float64) (uptime : string) : M unit :=
  db_Exec (UpdateServer online cpuUsage ramUsage diskUsage gpuUsage temp uptime serverID).

Definition addServerHistoryEntry (serverID : Z) (online : bool)
    (cpuUsage ramUsage diskUsage gpuUsage temp : float64) : M unit :=
  db_Exec (InsertServerHistory serverID online
             (sprintf_2f E cpuUsage) (sprintf_2f E ramUsage) (sprintf_2f E diskUsage)
             (sprintf_2f E gpuUsage) (sprintf_2f E temp)).

Definition when (b : bool) (m : M unit) : M unit := if b then m else ret tt.

(** The statements of a failure branch of the loop body (written out three
    times in the source: after the CPU, the memory and the filesystem
    fetch), [online] being [false] there. *)
Definition reportOffline (server : Server) (online : bool) (template : string) : M unit :=
  updateServerStatus (ID server) false zero zero zero zero zero "" ;;
  notify <- shouldSendNotification (ID server) online ;;
  when notify (sendStatusChangeNotification server online template) ;;
  addServerHistoryEntry (ID server) false zero zero zero zero zero.

(** One iteration of the loop of [MonitorServers]; [ret tt] on the first
    line is the [continue] of a skipped server. *)
Definition monitorServer (notificationTemplate : string) (server : Server) : M unit :=
  if negb (Monitoring server) || negb (Valid (MonitoringURL server)) then ret tt
  else
    let baseURL := TrimSuffix (NullString_String (MonitoringURL server)) "/" in
    cpu <- fetchCPUUsage baseURL ;;
    let '(online, cpuUsage) := cpu in
    if negb online then reportOffline server online notificationTemplate
    else
      uptimeStr <- fetchUptime baseURL ;;
      mem <- fetchMemoryUsage baseURL ;;
      let '(memOnline, memUsage) := mem in
      if negb memOnline then reportOffline server false notificationTemplate
      else
        let ramUsage := memUsage in
        disk <- fetchDiskUsage baseURL ;;
        let '(diskOnline, diskUsageVal) := disk in
        if negb diskOnline then reportOffline server false notificationTemplate
        else
          let diskUsage := diskUsageVal in
          gpu <- fetchGPUUsage baseURL ;;
          let gpuUsage := snd gpu in
          tmp <- fetchTemperature baseURL ;;
          let temp := snd tmp in
          notify <- (if negb (Bool.eqb online (Online server))
                     then shouldSendNotification (ID server) online
                     else ret false) ;;
          when notify (sendStatusChangeNotification server online notificationTemplate) ;;
          updateServerStatus (ID server) online cpuUsage ramUsage diskUsage gpuUsage temp
                             uptimeStr ;;
          addServerHistoryEntry (ID server) online cpuUsage ramUsage diskUsage gpuUsage temp.

Definition defaultTemplate : string := "The server !name is now !status!".

Definition loadTemplate : M string :=
  db_Exec SelectNotificationText ;;
  match settings_row E with
  | None => ret defaultTemplate
  | Some t => if String.eqb t "" then ret defaultTemplate else ret t
  end.

Definition MonitorServers (servers : list Server) : M unit :=
  notificationTemplate <- loadTemplate ;;
  forEach (monitorServer notificationTemplate) servers.

End Package.

(* ------------------------------------------------------------------------- *)
(** ** Vocabulary of the statements *)

(** The world after further GET requests, everything else untouched. *)
Definition withRequests (w : World) (urls : list string) : World :=
  mkWorld (requests w ++ urls) (statements w) (notifications w) (lastStatus w).

(** A fetch has failed: transport error, a status code other than 200, or a
    body that does not decode. *)
Definition fetch_failed {A} (dec : string -> option A) (reply : HttpReply) : Prop :=
  reply = TransportError \/
  exists code body, reply = Response code body /\
    (code <> StatusOK \/ Decode dec body = None).

(** The base URL the loop body derives from a server. *)
Definition baseURLOf (server : Server) : string :=
  TrimSuffix (NullString_String (MonitoringURL server)) "/".

(** A server the loop body does not skip. *)
Definition monitored (server : Server) : bool :=
  Monitoring server && Valid (MonitoringURL server).

(** The six endpoints, in the order the loop body requests them. *)
Definition cpuURL (base : string) : string := base +:+ "/api/4/cpu".
Definition uptimeURL (base : string) : string := base +:+ "/api/4/uptime".
Definition memURL (base : string) : string := base +:+ "/api/4/mem".
Definition fsURL (base : string) : string := base +:+ "/api/4/fs".
Definition gpuURL (base : string) : string := base +:+ "/api/4/gpu".
Definition tempURL (base : string) : string :=
  base +:+ "/api/4/sensors/label/value/Composite".

(** What each fetcher answers when the loop body reaches it, the body having
    started in world [w]. *)
Section Answers.
Variables (E : Env) (base : string) (w : World).

Definition cpuAnswer : bool * float64 := (fetchCPUUsage E base w).1.
Definition uptimeAnswer : string :=
  (fetchUptime E base (withRequests w [cpuURL base])).1.
Definition memAnswer : bool * float64 :=
  (fetchMemoryUsage E base (withRequests w [cpuURL base; uptimeURL base])).1.
Definition diskAnswer : bool * float64 :=
  (fetchDiskUsage E base
     (withRequests w [cpuURL base; uptimeURL base; memURL base])).1.
Definition gpuAnswer : bool * float64 :=
  (fetchGPUUsage E base
     (withRequests w [cpuURL base; uptimeURL base; memURL base; fsURL base])).1.
Definition tempAnswer : bool * float64 :=
  (fetchTemperature E base
     (withRequests w [cpuURL base; uptimeURL base; memURL base; fsURL base;
                      gpuURL base])).1.

(** The statements of an online outcome for server [id]. *)
Definition onlineStatements (id : Z) : list SqlStmt :=
  [UpdateServer true cpuAnswer.2 memAnswer.2 diskAnswer.2 gpuAnswer.2 tempAnswer.2
     uptimeAnswer id;
   InsertServerHistory id true (sprintf_2f E cpuAnswer.2) (sprintf_2f E memAnswer.2)
     (sprintf_2f E diskAnswer.2) (sprintf_2f E gpuAnswer.2) (sprintf_2f E tempAnswer.2)].
End Answers.

(** The endpoints other than the CPU endpoint. *)
Definition otherURLs (base : string) : list string :=
  [uptimeURL base; memURL base; fsURL base; gpuURL base; tempURL base].

(** The outcome of the probe of a host: online when the three required
    fetches succeed. *)
Definition probeOnline (E : Env) (base : string) (w : World) : bool :=
  (cpuAnswer E base w).1 && (memAnswer E base w).1 && (diskAnswer E base w).1.

(** The tail of the loop body once the three required fetches succeeded:
    the detector is consulted only when the stored snapshot says offline. *)
Definition finishOnline (server : Server) (template : string) (stmts : list SqlStmt)
    (w : World) : World :=
  let '(notify, w1) :=
    if Online server then (false, w) else shouldSendNotification (ID server) true w in
  mkWorld (requests w1) (statements w1 ++ stmts)
    (notifications w1 ++
       (if notify then [statusMessage (Name server) true template] else []))
    (lastStatus w1).

(** The statements of an offline outcome for server [id]. *)
Definition offlineStatements (E : Env) (id : Z) : list SqlStmt :=
  [UpdateServer false zero zero zero zero zero "" id;
   InsertServerHistory id false (sprintf_2f E zero) (sprintf_2f E zero)
     (sprintf_2f E zero) (sprintf_2f E zero) (sprintf_2f E zero)].

(** The notifications the detector lets through for [server], in the state
    of the map held by [w]. *)
Definition notificationIfDue (server : Server) (online : bool) (template : string)
    (w : World) : list string :=
  if (shouldSendNotification (ID server) online w).1
  then [statusMessage (Name server) online template]
  else [].

(** The statements for server [id] a probe ends with. *)
Definition outcomeStatements (E : Env) (server : Server) (w : World) : list SqlStmt :=
  if probeOnline E (baseURLOf server) w
  then onlineStatements E (baseURLOf server) w (ID server)
  else offlineStatements E (ID server).

(** A persisted offline outcome carries zero metrics: the status row has the
    five metrics 0 and an empty uptime, the history row has the [%.2f]
    rendering of 0 in its five metric columns. *)
Definition zeroedIfOffline (E : Env) (q : SqlStmt) : Prop :=
  match q with
  | UpdateServer false cpu ram disk gpu temp uptime _ =>
      cpu = zero /\ ram = zero /\ disk = zero /\ gpu = zero /\ temp = zero /\
      uptime = ""
  | InsertServerHistory _ false cpu ram disk gpu temp =>
      cpu = sprintf_2f E zero /\ ram = sprintf_2f E zero /\
      disk = sprintf_2f E zero /\ gpu = sprintf_2f E zero /\
      temp = sprintf_2f E zero
  | _ => True
  end.

(** Status-row updates and history rows for a given server. *)
Definition isUpdateOf (id : Z) (q : SqlStmt) : bool :=
  match q with
  | UpdateServer _ _ _ _ _ _ _ id' => Z.eqb id' id
  | _ => false
  end.

Definition isHistoryOf (id : Z) (q : SqlStmt) : bool :=
  match q with
  | InsertServerHistory id' _ _ _ _ _ _ => Z.eqb id' id
  | _ => false
  end.

(** The servers of the list that are not skipped and carry the id [id]. *)
Definition processedAs (id : Z) (server : Server) : bool :=
  monitored server && Z.eqb (ID server) id.

Definition countWhere {A} (p : A -> bool) (l : list A) : nat :=
  length (List.filter p l).

(** Membership of a byte in a string. *)
Fixpoint occurs (c : ascii) (s : string) : bool :=
  match s with
  | EmptyString => false
  | String a r => Ascii.eqb a c || occurs c r
  end.

(** Decimal numbers in an uptime text: a non-empty string of digits, and
    its value. *)
Fixpoint allDigits (s : string) : bool :=
  match s with
  | EmptyString => true
  | String c r => isDigit c && allDigits r
  end.

Definition isNumber (s : string) : bool :=
  match s with
  | EmptyString => false
  | String _ _ => allDigits s
  end.

Fixpoint decimalFrom (acc : Z) (s : string) : Z :=
  match s with
  | EmptyString => acc
  | String c r => decimalFrom (10 * acc + digit_value c) r
  end.

Definition decimal (s : string) : Z := decimalFrom 0 s.

Definition startsWithDigit (s : string) : bool :=
  match s with
  | EmptyString => false
  | String c _ => isDigit c
  end.

(** The day part of an uptime text: absent, or a number followed by [day]
    or [days]. *)
Inductive DayPart :=
| NoDays
| Days (N : string) (plural : bool).

(** The uptime text [<N> day(s), H:MM:SS] or [H:MM:SS]. *)
Definition uptimeText (d : DayPart) (H MM SS : string) : string :=
  match d with
  | NoDays => H +:+ ":" +:+ MM +:+ ":" +:+ SS
  | Days N plural =>
      (N +:+ (if plural then " days" else " day")) +:+ ", " +:+
      (H +:+ ":" +:+ MM +:+ ":" +:+ SS)
  end.

Definition wellFormed (d : DayPart) (H MM SS : string) : bool :=
  match d with
  | NoDays => true
  | Days N _ => isNumber N
  end && isNumber H && isNumber MM && isNumber SS.

Definition dayCount (d : DayPart) : Z :=
  match d with
  | NoDays => 0
  | Days N _ => decimal N
  end.

(** The elapsed time the text stands for, in nanoseconds. *)
Definition elapsed (d : DayPart) (H MM SS : string) : Z :=
  dayCount d * 24 * Hour + decimal H * Hour + decimal MM * Minute + decimal SS * Second.

(** A parsing step of [formatUptime] fails: the text has more than two
    parts, or the day count scans with neither format, or the time of day
    does not scan. *)
Definition parseFails (uptimeStr : string) : Prop :=
  match Split uptimeStr ", " with
  | [part0; part1] =>
      (Sscanf part0 "%d days" = None /\ Sscanf part0 "%d day" = None) \/
      Sscanf part1 "%d:%d:%d" = None
  | [part0] => Sscanf part0 "%d:%d:%d" = None
  | _ => True
  end.

(** A stub of the outside, for the concrete scenarios: the reply to a GET
    depends on the URL only; the decoders know a handful of bodies. *)
Definition stubDecoder {A} (known : list (string * A)) (body : string) : option A :=
  snd <$> List.find (fun kv => String.eqb (fst kv) body) known.

Definition stubEnv (reply : string -> HttpReply) (now : Time) : Env := {|
  http_get := fun _ url => reply url;
  settings_row := None;
  time_Now := fun _ => now;
  json_cpu := stubDecoder [("cpu 42", {| cpu_Total := 42%float |})];
  json_mem := stubDecoder [("mem 55", {| mem_Percent := 55%float |})];
  json_fs := stubDecoder [("[]", []); ("fs 61", [{| fs_Percent := 61%float |}])];
  json_gpu := stubDecoder [("gpu 7", {| gpu_Proc := 7%float |})];
  json_temp := stubDecoder [("temp 38", {| Composite := [{| sensor_Value := 38%float |}] |});
                            ("no sensor", {| Composite := [] |})];
  json_uptime := stubDecoder [];
  sprintf_2f := fun x =>
    default "?" (snd <$> List.find (fun kv => PrimFloat.eqb (fst kv) x)
                   [(0, "0.00"); (42, "42.00"); (55, "55.00"); (61, "61.00");
                    (7, "7.00"); (38, "38.00")]%float)
|}.

(** 2025-07-01 17:44:36 UTC. *)
Definition sampleNow : Time := mkTime (1751391876 * Second) UTC.

Definition ok200 (body : string) : HttpReply := Response 200 (Some body).

(** A healthy host at [http://nas:61208] without GPU endpoint. *)
Definition healthyReplies (url : string) : HttpReply :=
  if String.eqb url "http://nas:61208/api/4/cpu" then ok200 "cpu 42"
  else if String.eqb url "http://nas:61208/api/4/mem" then ok200 "mem 55"
  else if String.eqb url "http://nas:61208/api/4/fs" then ok200 "fs 61"
  else if String.eqb url "http://nas:61208/api/4/uptime" then ok200 "0:05:10"
  else if String.eqb url "http://nas:61208/api/4/sensors/label/value/Composite"
       then ok200 "temp 38"
  else Response 404 (Some "not found").

(** The same host with an empty filesystem list. *)
Definition noFsReplies (url : string) : HttpReply :=
  if String.eqb url "http://nas:61208/api/4/fs" then ok200 "[]"
  else healthyReplies url.

(** A host that does not answer. *)
Definition deadReplies (url : string) : HttpReply := TransportError.

Definition healthy : Env := stubEnv healthyReplies sampleNow.
Definition noFs : Env := stubEnv noFsReplies sampleNow.
Definition dead : Env := stubEnv deadReplies sampleNow.
Definition nasURL : string := "http://nas:61208".

(** A server whose monitoring is switched off. *)
Definition spare : Server := {|
  ID := 8;
  Name := "spare";
  Monitoring := false;
  MonitoringURL := {| NullString_String := "http://spare:61208"; Valid := true |};
  Online := false
|}.

Definition nas (online : bool) : Server := {|
  ID := 7;
  Name := "nas";
  Monitoring := true;
  MonitoringURL := {| NullString_String := "http://nas:61208/"; Valid := true |};
  Online := online
|}.

(** The endpoints an iteration requests, by the outcome of the required
    fetches. *)
Definition probeRequests (E : Env) (base : string) (w : World) : list string :=
  if negb (cpuAnswer E base w).1 then [cpuURL base]
  else if negb (memAnswer E base w).1 then [cpuURL base; uptimeURL base; memURL base]
  else if negb (diskAnswer E base w).1
       then [cpuURL base; uptimeURL base; memURL base; fsURL base]
  else [cpuURL base; uptimeURL base; memURL base; fsURL base; gpuURL base;
        tempURL base].

(** The uptime endpoint does not deliver: transport error, a status code
    other than 200, or a body that cannot be read. *)
Definition uptime_unavailable (reply : HttpReply) : Prop :=
  reply = TransportError \/
  (exists code body, reply = Response code body /\ code <> StatusOK) \/
  reply = Response StatusOK None.

(** A status row and the history row written after it: same server, same
    online flag, the metrics of the history row being the [%.2f] rendering
    of those of the status row. *)
Definition historyRowOf (E : Env) (q : SqlStmt) : option SqlStmt :=
  match q with
  | UpdateServer online cpu ram disk gpu temp _ id =>
      Some (InsertServerHistory id online (sprintf_2f E cpu) (sprintf_2f E ram)
              (sprintf_2f E disk) (sprintf_2f E gpu) (sprintf_2f E temp))
  | _ => None
  end.

Definition updatedId (q : SqlStmt) : option Z :=
  match q with
  | UpdateServer _ _ _ _ _ _ _ id => Some id
  | _ => None
  end.

(** A status row followed by its history row. *)
Definition rowPair (E : Env) (q : SqlStmt) : list SqlStmt :=
  match historyRowOf E q with
  | Some h => [q; h]
  | None => []
  end.

(** The duration [formatUptime] subtracts from the clock, negated as the
    code negates it; [None] when a parsing step fails. *)
Definition scanTimeOfDay (days : Z) (timeStr : string) : option Z :=
  match Sscanf timeStr "%d:%d:%d" with
  | Some [hours; minutes; seconds] =>
      Some (neg64
              (add64 (add64 (add64 (mul64 (mul64 days 24) Hour) (mul64 hours Hour))
                            (mul64 minutes Minute))
                     (mul64 seconds Second)))
  | _ => None
  end.

Definition scanUptime (uptimeStr : string) : option Z :=
  match Split uptimeStr ", " with
  | [part0; part1] =>
      match Sscanf part0 "%d days" with
      | Some [days] => scanTimeOfDay days part1
      | _ =>
          match Sscanf part0 "%d day" with
          | Some [days] => scanTimeOfDay days part1
          | _ => None
          end
      end
  | [part0] => scanTimeOfDay 0 part0
  | _ => None
  end.

(** Hosts for the further scenarios: memory endpoint down, filesystem
    endpoint down, uptime endpoint down. *)
Definition memDownReplies (url : string) : HttpReply :=
  if String.eqb url "http://nas:61208/api/4/mem" then Response 500 (Some "error")
  else healthyReplies url.

Definition fsDownReplies (url : string) : HttpReply :=
  if String.eqb url "http://nas:61208/api/4/fs" then Response 200 (Some "no json")
  else healthyReplies url.

Definition uptimeDownReplies (url : string) : HttpReply :=
  if String.eqb url "http://nas:61208/api/4/uptime" then TransportError
  else healthyReplies url.

(** The uptime endpoint answers the JSON string ["3 days, 3:52:36"], quotes
    included. *)
Definition quotedUptimeReplies (url : string) : HttpReply :=
  if String.eqb url "http://nas:61208/api/4/uptime"
  then ok200 (String "034" ("3 days, 3:52:36" +:+ String "034" ""))
  else healthyReplies url.

Definition quotedUptime : Env := stubEnv quotedUptimeReplies sampleNow.
(** The server [nas] with its monitoring URL written without final slash. *)
Definition nasPlain : Server := {|
  ID := 7;
  Name := "nas";
  Monitoring := true;
  MonitoringURL := {| NullString_String := "http://nas:61208"; Valid := true |};
  Online := true
|}.

(** A world whose detector map knows server 8 as online. *)
Definition spareKnown : World := mkWorld [] [] [] {[ 8 := true ]}.

Definition memDown : Env := stubEnv memDownReplies sampleNow.
Definition fsDown : Env := stubEnv fsDownReplies sampleNow.
Definition uptimeDown : Env := stubEnv uptimeDownReplies sampleNow.

(* ------------------------------------------------------------------------- *)
(** * Properties *)

(** ** The library models at work *)

Example ReplaceAll_ex : ReplaceAll "The server !name is now !status!" "!name" "nas"
  = "The server nas is now !status!".
Proof. reflexivity. Qed.

Example ReplaceAll_overlap : ReplaceAll "aaa" "aa" "b" = "ba".
Proof. reflexivity. Qed.

Example Split_two : Split "3 days, 3:52:36" ", " = ["3 days"; "3:52:36"].
Proof. reflexivity. Qed.

Example Split_empty : Split "" ", " = [""].
Proof. reflexivity. Qed.

Example Split_three : Split "a, , b" ", " = ["a"; ""; "b"].
Proof. reflexivity. Qed.

Example TrimSuffix_slash : TrimSuffix "http://nas:61208/" "/" = "http://nas:61208".
Proof. reflexivity. Qed.

Example Sscanf_days_plural : Sscanf "3 days" "%d days" = Some [3].
Proof. reflexivity. Qed.

Example Sscanf_days_singular :
  Sscanf "1 day" "%d days" = None /\ Sscanf "1 day" "%d day" = Some [1].
Proof. split; reflexivity. Qed.

Example Sscanf_time_of_day : Sscanf "3:52:36" "%d:%d:%d" = Some [3; 52; 36].
Proof. reflexivity. Qed.

Example Sscanf_signs_and_blanks : Sscanf " -3:+52: 36 up" "%d:%d:%d" = Some [-3; 52; 36].
Proof. reflexivity. Qed.

Example Sscanf_no_number : Sscanf "garbage" "%d:%d:%d" = None.
Proof. reflexivity. Qed.

Example Sscanf_out_of_range : Sscanf "9223372036854775808:0:0" "%d:%d:%d" = None.
Proof. reflexivity. Qed.

Example Format_sample : Format_2_1_15_04 sampleNow = "1.7 17:44".
Proof. reflexivity. Qed.

Example Format_leap_day :
  Format_2_1_15_04 (mkTime (951782400 * Second) (fun _ => 7200)) = "29.2 02:00".
Proof. reflexivity. Qed.

Example Format_before_epoch : Format_2_1_15_04 (mkTime (- Second) UTC) = "31.12 23:59".
Proof. reflexivity. Qed.

Example wrap64_overflow : mul64 (mul64 106752 24) Hour = -9223371273709551616.
Proof. reflexivity. Qed.

(* ------------------------------------------------------------------------- *)
(** ** The transition detector *)

Section Detector.

Implicit Types (id : Z) (online : bool) (w : World).

Lemma shouldSendNotification_records id online w :
  lastStatus (shouldSendNotification id online w).2 !! id = Some online.
Proof.
  unfold shouldSendNotification.
  destruct (lastStatus w !! id) as [last|] eqn:Hl; simpl.
  - destruct last, online; simpl; rewrite ?lookup_insert_eq; auto.
  - apply lookup_insert_eq.
Qed.

Lemma shouldSendNotification_frame id online w :
  let w' := (shouldSendNotification id online w).2 in
  requests w' = requests w /\ statements w' = statements w /\
  notifications w' = notifications w /\
  forall j, j <> id -> lastStatus w' !! j = lastStatus w !! j.
Proof.
  unfold shouldSendNotification.
  destruct (lastStatus w !! id) as [last|]; simpl.
  - destruct (negb (Bool.eqb last online)); simpl; repeat split; auto.
    intros j Hj. now rewrite lookup_insert_ne.
  - repeat split; auto. intros j Hj. now rewrite lookup_insert_ne.
Qed.

Lemma shouldSendNotification_result id online w :
  (shouldSendNotification id online w).1 = true <->
  lastStatus w !! id = None \/
  exists last, lastStatus w !! id = Some last /\ last <> online.
Proof.
  unfold shouldSendNotification.
  destruct (lastStatus w !! id) as [last|]; simpl.
  - destruct last, online; simpl; split; intros H; try discriminate; eauto;
      try (right; eexists; split; [reflexivity|discriminate]);
      destruct H as [H|[b [H1 H2]]]; try discriminate; congruence.
  - split; auto.
Qed.

(** C4.  [shouldSendNotification id online] answers [true] exactly when the
    map has no entry for [id] or its entry differs from [online]; afterwards
    the entry of [id] is [online].  In the map of a fresh process the first
    call answers [true] whatever [online] is; a second call with the same
    value answers [false]; a call with the flipped value answers [true]. *)
Theorem shouldSendNotification_spec id online w :
  ((shouldSendNotification id online w).1 = true <->
     lastStatus w !! id = None \/
     exists last, lastStatus w !! id = Some last /\ last <> online) /\
  lastStatus (shouldSendNotification id online w).2 !! id = Some online /\
  (shouldSendNotification id online emptyWorld).1 = true /\
  (shouldSendNotification id online (shouldSendNotification id online w).2).1 = false /\
  (shouldSendNotification id (negb online) (shouldSendNotification id online w).2).1 = true.
Proof.
  split; [apply shouldSendNotification_result|].
  split; [apply shouldSendNotification_records|].
  split; [reflexivity|].
  pose proof (shouldSendNotification_records id online w) as Hrec.
  split.
  - unfold shouldSendNotification at 1. rewrite Hrec.
    now rewrite Bool.eqb_reflx.
  - unfold shouldSendNotification at 1. rewrite Hrec.
    now destruct online.
Qed.

End Detector.

(* ------------------------------------------------------------------------- *)
(** ** Running the monad *)

Lemma bind_run {A B} (m : M A) (k : A -> M B) (w : World) :
  bind m k w = k (m w).1 (m w).2.
Proof. unfold bind. now destruct (m w). Qed.

Lemma ret_run {A} (a : A) (w : World) : ret a w = (a, w).
Proof. reflexivity. Qed.

Lemma withRequests_app w urls urls' :
  withRequests (withRequests w urls) urls' = withRequests w (urls ++ urls').
Proof. unfold withRequests; simpl. now rewrite <- app_assoc. Qed.

Section Fetchers.

Variable E : Env.
Implicit Types (baseURL : string) (w : World).

Lemma client_Get_run url w :
  client_Get E url w = (http_get E (requests w) url, withRequests w [url]).
Proof. reflexivity. Qed.

Ltac fetch_world :=
  intros; rewrite bind_run, client_Get_run; simpl;
  repeat match goal with
         | |- context [match ?x with _ => _ end] => destruct x
         end; reflexivity.

Lemma fetchCPUUsage_world baseURL w :
  (fetchCPUUsage E baseURL w).2 = withRequests w [baseURL +:+ "/api/4/cpu"].
Proof. unfold fetchCPUUsage. fetch_world. Qed.

Lemma fetchMemoryUsage_world baseURL w :
  (fetchMemoryUsage E baseURL w).2 = withRequests w [baseURL +:+ "/api/4/mem"].
Proof. unfold fetchMemoryUsage. fetch_world. Qed.

Lemma fetchDiskUsage_world baseURL w :
  (fetchDiskUsage E baseURL w).2 = withRequests w [baseURL +:+ "/api/4/fs"].
Proof. unfold fetchDiskUsage. fetch_world. Qed.

Lemma fetchGPUUsage_world baseURL w :
  (fetchGPUUsage E baseURL w).2 = withRequests w [baseURL +:+ "/api/4/gpu"].
Proof. unfold fetchGPUUsage. fetch_world. Qed.

Lemma fetchTemperature_world baseURL w :
  (fetchTemperature E baseURL w).2 =
  withRequests w [baseURL +:+ "/api/4/sensors/label/value/Composite"].
Proof. unfold fetchTemperature. fetch_world. Qed.

Lemma fetchUptime_world baseURL w :
  (fetchUptime E baseURL w).2 = withRequests w [baseURL +:+ "/api/4/uptime"].
Proof.
  unfold fetchUptime. rewrite bind_run, client_Get_run; simpl.
  repeat match goal with
         | |- context [match ?x with _ => _ end] => destruct x
         | |- context [bind time_now _ _] => rewrite bind_run; simpl
         end; reflexivity.
Qed.

End Fetchers.

(* ------------------------------------------------------------------------- *)
(** ** The failure branches of the loop body *)

Section OfflineBranch.

Variable E : Env.
Implicit Types (server : Server) (w : World).

Lemma shouldSendNotification_ext id online w1 w2 :
  lastStatus w1 = lastStatus w2 ->
  (shouldSendNotification id online w1).1 = (shouldSendNotification id online w2).1 /\
  lastStatus (shouldSendNotification id online w1).2 =
  lastStatus (shouldSendNotification id online w2).2.
Proof.
  intros H. unfold shouldSendNotification. rewrite H.
  destruct (lastStatus w2 !! id) as [last|]; simpl; auto.
  destruct (negb (Bool.eqb last online)); simpl; auto.
Qed.

Lemma reportOffline_run server online template w :
  let w' := (reportOffline E server online template w).2 in
  requests w' = requests w /\
  statements w' = statements w ++ offlineStatements E (ID server) /\
  notifications w' = notifications w ++ notificationIfDue server online template w /\
  lastStatus w' = lastStatus (shouldSendNotification (ID server) online w).2.
Proof.
  unfold reportOffline, notificationIfDue, updateServerStatus, addServerHistoryEntry,
    sendStatusChangeNotification, when.
  rewrite !bind_run.
  set (w1 := (db_Exec (UpdateServer false zero zero zero zero zero "" (ID server)) w).2).
  assert (Hl : lastStatus w1 = lastStatus w) by reflexivity.
  destruct (shouldSendNotification_ext (ID server) online w1 w Hl) as [Hb Hm].
  destruct (shouldSendNotification_frame (ID server) online w1) as (Hr & Hs & Hn & _).
  rewrite <- Hb, <- Hm.
  destruct (shouldSendNotification (ID server) online w1) as [b w2]; simpl in *.
  destruct b; simpl; rewrite ?Hr, ?Hs, ?Hn; subst w1; simpl;
    rewrite <- ?app_assoc, ?app_nil_r; auto.
Qed.

End OfflineBranch.

(* ------------------------------------------------------------------------- *)
(** ** The required and the optional fetchers *)

Section FetchResults.

Variable E : Env.
Implicit Types (baseURL : string) (w : World).

Ltac fetch_cases :=
  rewrite bind_run, client_Get_run; simpl; unfold fetch_failed;
  repeat match goal with
         | |- context [http_get E ?l ?u] => destruct (http_get E l u) as [|code body]
         | |- context [Z.eqb ?c StatusOK] => destruct (Z.eqb_spec c StatusOK)
         | |- context [Decode ?d ?b] => destruct (Decode d b) as [[]|] eqn:?
         | |- context [match ?x with _ => _ end] => destruct x eqn:?
         end; simpl.

Ltac failed_iff :=
  split; intros H; try discriminate; try reflexivity;
  try (left; reflexivity);
  try (right; do 2 eexists; split; [reflexivity|]; auto; fail);
  try (destruct H as [H|(c' & b' & H & [Hc|Hd])]; [discriminate|..];
       inversion H; subst; congruence).

Lemma fetchCPUUsage_failed baseURL w :
  (fetchCPUUsage E baseURL w).1.1 = false <->
  fetch_failed (json_cpu E) (http_get E (requests w) (baseURL +:+ "/api/4/cpu")).
Proof. unfold fetchCPUUsage. fetch_cases; failed_iff. Qed.

Lemma fetchMemoryUsage_failed baseURL w :
  (fetchMemoryUsage E baseURL w).1.1 = false <->
  fetch_failed (json_mem E) (http_get E (requests w) (baseURL +:+ "/api/4/mem")).
Proof. unfold fetchMemoryUsage. fetch_cases; failed_iff. Qed.

(** C2 (as the code has it).  [fetchDiskUsage] answers [ok = false] exactly
    on a transport error, a status code other than 200 or a body that does
    not decode; in particular an empty filesystem list is answered with
    [ok = true] and the value 0. *)
Theorem fetchDiskUsage_failed baseURL w :
  ((fetchDiskUsage E baseURL w).1.1 = false <->
   fetch_failed (json_fs E) (http_get E (requests w) (baseURL +:+ "/api/4/fs"))) /\
  (forall body,
     http_get E (requests w) (baseURL +:+ "/api/4/fs") = Response StatusOK body ->
     Decode (json_fs E) body = Some [] ->
     (fetchDiskUsage E baseURL w).1 = (true, zero)).
Proof.
  split.
  - unfold fetchDiskUsage. fetch_cases; failed_iff.
  - intros body Hr Hd. unfold fetchDiskUsage.
    rewrite bind_run, client_Get_run; simpl. rewrite Hr; simpl.
    now rewrite Hd.
Qed.

Lemma fetchGPUUsage_ok baseURL w : (fetchGPUUsage E baseURL w).1.1 = true.
Proof. unfold fetchGPUUsage. fetch_cases; reflexivity. Qed.

Lemma fetchTemperature_ok baseURL w : (fetchTemperature E baseURL w).1.1 = true.
Proof. unfold fetchTemperature. fetch_cases; reflexivity. Qed.

Lemma fetchGPUUsage_failed baseURL w :
  fetch_failed (json_gpu E) (http_get E (requests w) (baseURL +:+ "/api/4/gpu")) ->
  (fetchGPUUsage E baseURL w).1 = (true, zero).
Proof.
  unfold fetchGPUUsage. fetch_cases; intros H; try reflexivity;
  destruct H as [H|(c' & b' & H & [Hc|Hd])]; try discriminate;
    inversion H; subst; congruence.
Qed.

Lemma fetchTemperature_failed baseURL w :
  fetch_failed (json_temp E)
    (http_get E (requests w) (baseURL +:+ "/api/4/sensors/label/value/Composite")) ->
  (fetchTemperature E baseURL w).1 = (true, zero).
Proof.
  unfold fetchTemperature. fetch_cases; intros H; try reflexivity;
  destruct H as [H|(c' & b' & H & [Hc|Hd])]; try discriminate;
    inversion H; subst; congruence.
Qed.

Lemma fetchTemperature_no_sensor baseURL w body tempData :
  http_get E (requests w) (baseURL +:+ "/api/4/sensors/label/value/Composite")
    = Response StatusOK body ->
  Decode (json_temp E) body = Some tempData ->
  Composite tempData = [] ->
  (fetchTemperature E baseURL w).1 = (true, zero).
Proof.
  intros Hr Hd Hc. unfold fetchTemperature.
  rewrite bind_run, client_Get_run; simpl. rewrite Hr; simpl.
  now rewrite Hd, Hc.
Qed.

End FetchResults.

(* ------------------------------------------------------------------------- *)
(** ** The loop body, branch by branch *)

Section LoopBody.

Variable E : Env.
Implicit Types (server : Server) (w : World) (template : string).

Ltac enter server H :=
  unfold monitorServer, monitored in *;
  fold (baseURLOf server);
  destruct (Monitoring server), (Valid (MonitoringURL server)); try discriminate H;
  cbn [negb orb].

Lemma monitorServer_skipped template server w :
  monitored server = false -> monitorServer E template server w = (tt, w).
Proof.
  unfold monitorServer, monitored.
  now destruct (Monitoring server), (Valid (MonitoringURL server)).
Qed.

Lemma monitorServer_cpu_failed template server w :
  monitored server = true ->
  (cpuAnswer E (baseURLOf server) w).1 = false ->
  monitorServer E template server w =
  reportOffline E server false template (withRequests w [cpuURL (baseURLOf server)]).
Proof.
  intros Hm Hcpu. enter server Hm.
  unfold cpuAnswer in Hcpu.
  rewrite bind_run, fetchCPUUsage_world.
  destruct (fetchCPUUsage E (baseURLOf server) w).1 as [online cpuUsage].
  simpl in Hcpu. now subst online.
Qed.

Lemma monitorServer_mem_failed template server w :
  monitored server = true ->
  (cpuAnswer E (baseURLOf server) w).1 = true ->
  (memAnswer E (baseURLOf server) w).1 = false ->
  monitorServer E template server w =
  reportOffline E server false template
    (withRequests w [cpuURL (baseURLOf server); uptimeURL (baseURLOf server);
                     memURL (baseURLOf server)]).
Proof.
  intros Hm Hcpu Hmem. enter server Hm.
  unfold cpuAnswer, memAnswer in *.
  rewrite bind_run, fetchCPUUsage_world.
  destruct (fetchCPUUsage E (baseURLOf server) w).1 as [online cpuUsage].
  simpl in Hcpu; subst online. cbn [negb].
  rewrite bind_run, fetchUptime_world, withRequests_app.
  rewrite bind_run, fetchMemoryUsage_world, withRequests_app. simpl app.
  destruct (fetchMemoryUsage E (baseURLOf server) _).1 as [memOnline memUsage].
  simpl in Hmem. now subst memOnline.
Qed.

Lemma monitorServer_disk_failed template server w :
  monitored server = true ->
  (cpuAnswer E (baseURLOf server) w).1 = true ->
  (memAnswer E (baseURLOf server) w).1 = true ->
  (diskAnswer E (baseURLOf server) w).1 = false ->
  monitorServer E template server w =
  reportOffline E server false template
    (withRequests w [cpuURL (baseURLOf server); uptimeURL (baseURLOf server);
                     memURL (baseURLOf server); fsURL (baseURLOf server)]).
Proof.
  intros Hm Hcpu Hmem Hdisk. enter server Hm.
  unfold cpuAnswer, memAnswer, diskAnswer in *.
  rewrite bind_run, fetchCPUUsage_world.
  destruct (fetchCPUUsage E (baseURLOf server) w).1 as [online cpuUsage].
  simpl in Hcpu; subst online. cbn [negb].
  rewrite bind_run, fetchUptime_world, withRequests_app.
  rewrite bind_run, fetchMemoryUsage_world, withRequests_app. simpl app.
  destruct (fetchMemoryUsage E (baseURLOf server) _).1 as [memOnline memUsage].
  simpl in Hmem; subst memOnline. cbn [negb].
  rewrite bind_run, fetchDiskUsage_world, withRequests_app. simpl app.
  destruct (fetchDiskUsage E (baseURLOf server) _).1 as [diskOnline diskUsage].
  simpl in Hdisk. now subst diskOnline.
Qed.

Lemma monitorServer_online template server w :
  monitored server = true ->
  (cpuAnswer E (baseURLOf server) w).1 = true ->
  (memAnswer E (baseURLOf server) w).1 = true ->
  (diskAnswer E (baseURLOf server) w).1 = true ->
  (monitorServer E template server w).2 =
  finishOnline server template (onlineStatements E (baseURLOf server) w (ID server))
    (withRequests w [cpuURL (baseURLOf server); uptimeURL (baseURLOf server);
                     memURL (baseURLOf server); fsURL (baseURLOf server);
                     gpuURL (baseURLOf server); tempURL (baseURLOf server)]).
Proof.
  intros Hm Hcpu Hmem Hdisk. enter server Hm.
  unfold onlineStatements, finishOnline.
  unfold cpuAnswer, memAnswer, diskAnswer, gpuAnswer, tempAnswer, uptimeAnswer in *.
  rewrite bind_run, fetchCPUUsage_world.
  destruct (fetchCPUUsage E (baseURLOf server) w).1 as [online cpuUsage].
  simpl in Hcpu; subst online. cbn [negb].
  rewrite bind_run, fetchUptime_world, withRequests_app.
  rewrite bind_run, fetchMemoryUsage_world, withRequests_app. simpl app.
  destruct (fetchMemoryUsage E (baseURLOf server) _).1 as [memOnline memUsage].
  simpl in Hmem; subst memOnline. cbn [negb].
  rewrite bind_run, fetchDiskUsage_world, withRequests_app. simpl app.
  destruct (fetchDiskUsage E (baseURLOf server) _).1 as [diskOnline diskUsage].
  simpl in Hdisk; subst diskOnline. cbn [negb].
  rewrite bind_run, fetchGPUUsage_world, withRequests_app. simpl app.
  rewrite bind_run, fetchTemperature_world, withRequests_app. simpl app.
  rewrite bind_run.
  unfold cpuURL, uptimeURL, memURL, fsURL, gpuURL, tempURL.
  destruct (Online server); simpl.
  - now rewrite <- !app_assoc, app_nil_r.
  - match goal with
    | |- context [shouldSendNotification ?i ?o ?x] =>
        destruct (shouldSendNotification i o x) as [[] w1]
    end; simpl; now rewrite <- !app_assoc, ?app_nil_r.
Qed.

End LoopBody.

(* ------------------------------------------------------------------------- *)
(** ** What one iteration leaves behind *)

Section Iteration.

Variable E : Env.
Implicit Types (server : Server) (w : World) (template : string).

Lemma finishOnline_frame server template stmts w :
  requests (finishOnline server template stmts w) = requests w /\
  statements (finishOnline server template stmts w) = statements w ++ stmts.
Proof.
  unfold finishOnline. destruct (Online server); simpl; auto.
  destruct (shouldSendNotification_frame (ID server) true w) as (Hr & Hs & _).
  destruct (shouldSendNotification (ID server) true w) as [b w1]; simpl in *.
  now rewrite Hr, Hs.
Qed.

(** The three required answers decide which branch runs. *)
Lemma monitorServer_branch template server w :
  monitored server = true ->
  exists urls,
    (probeOnline E (baseURLOf server) w = false /\
     ((cpuAnswer E (baseURLOf server) w).1 = false -> urls = [cpuURL (baseURLOf server)]) /\
     monitorServer E template server w =
     reportOffline E server false template (withRequests w urls))
    \/
    (probeOnline E (baseURLOf server) w = true /\
     (monitorServer E template server w).2 =
     finishOnline server template
       (onlineStatements E (baseURLOf server) w (ID server)) (withRequests w urls)).
Proof.
  intros Hm. unfold probeOnline.
  destruct (cpuAnswer E (baseURLOf server) w).1 eqn:Hcpu.
  2:{ exists [cpuURL (baseURLOf server)]; left.
      split; [reflexivity|]. split; [reflexivity|].
      now apply monitorServer_cpu_failed. }
  destruct (memAnswer E (baseURLOf server) w).1 eqn:Hmem.
  2:{ eexists; left. split; [reflexivity|]. split; [discriminate|].
      now apply monitorServer_mem_failed. }
  destruct (diskAnswer E (baseURLOf server) w).1 eqn:Hdisk.
  2:{ eexists; left. split; [reflexivity|]. split; [discriminate|].
      now apply monitorServer_disk_failed. }
  eexists; right. split; [reflexivity|].
  now apply monitorServer_online.
Qed.

Lemma monitorServer_statements template server w :
  statements (monitorServer E template server w).2 =
  statements w ++
    (if monitored server then outcomeStatements E server w else []).
Proof.
  destruct (monitored server) eqn:Hm.
  - unfold outcomeStatements.
    destruct (monitorServer_branch template server w Hm)
      as [urls [(Hp & _ & Hrun)|(Hp & Hrun)]]; rewrite Hp, Hrun.
    + now destruct (reportOffline_run E server false template (withRequests w urls))
        as (_ & Hs & _).
    + now destruct (finishOnline_frame server template
                      (onlineStatements E (baseURLOf server) w (ID server))
                      (withRequests w urls)) as (_ & Hs).
  - rewrite monitorServer_skipped by assumption. simpl. now rewrite app_nil_r.
Qed.

Lemma outcomeStatements_zeroed server w :
  Forall (zeroedIfOffline E) (outcomeStatements E server w).
Proof.
  unfold outcomeStatements, onlineStatements, offlineStatements.
  destruct (probeOnline E (baseURLOf server) w);
    repeat constructor; simpl; auto.
Qed.

End Iteration.

(* ------------------------------------------------------------------------- *)
(** ** A whole cycle *)

Section Cycle.

Variable E : Env.
Implicit Types (server : Server) (w : World) (template : string).

Lemma countWhere_app {A} (p : A -> bool) (l1 l2 : list A) :
  countWhere p (l1 ++ l2) = (countWhere p l1 + countWhere p l2)%nat.
Proof. unfold countWhere. now rewrite List.filter_app, length_app. Qed.

Lemma countWhere_cons {A} (p : A -> bool) (x : A) (l : list A) :
  countWhere p (x :: l) = ((if p x then 1 else 0) + countWhere p l)%nat.
Proof. unfold countWhere. simpl. now destruct (p x). Qed.

Lemma outcomeStatements_count server w id :
  countWhere (isUpdateOf id) (outcomeStatements E server w)
    = (if Z.eqb (ID server) id then 1 else 0)%nat /\
  countWhere (isHistoryOf id) (outcomeStatements E server w)
    = (if Z.eqb (ID server) id then 1 else 0)%nat.
Proof.
  unfold outcomeStatements, onlineStatements, offlineStatements, countWhere.
  destruct (probeOnline E (baseURLOf server) w); simpl;
    destruct (Z.eqb (ID server) id); auto.
Qed.

Lemma forEach_issued template servers w :
  exists issued,
    statements (forEach (monitorServer E template) servers w).2 = statements w ++ issued /\
    Forall (zeroedIfOffline E) issued /\
    forall id,
      countWhere (isUpdateOf id) issued = countWhere (processedAs id) servers /\
      countWhere (isHistoryOf id) issued = countWhere (processedAs id) servers.
Proof.
  revert w. induction servers as [|server rest IH]; intros w.
  - exists []. simpl. rewrite app_nil_r. repeat split; auto.
  - simpl forEach. rewrite bind_run.
    destruct (IH (monitorServer E template server w).2) as (issued & Hs & Hz & Hc).
    rewrite Hs, monitorServer_statements, <- app_assoc.
    eexists; split; [reflexivity|]. split.
    + apply Forall_app; split; [|exact Hz].
      destruct (monitored server); [apply outcomeStatements_zeroed | constructor].
    + intros id. destruct (Hc id) as [Hu Hh].
      rewrite !countWhere_app, Hu, Hh, (countWhere_cons (processedAs id)).
      assert (Hp : processedAs id server = monitored server && Z.eqb (ID server) id)
        by reflexivity.
      rewrite Hp. destruct (monitored server) eqn:Hm; simpl andb.
      * now destruct (outcomeStatements_count server w id) as [-> ->].
      * now split.
Qed.

Lemma MonitorServers_issued servers w :
  exists issued,
    statements (MonitorServers E servers w).2
      = statements w ++ SelectNotificationText :: issued /\
    Forall (zeroedIfOffline E) issued /\
    forall id,
      countWhere (isUpdateOf id) issued = countWhere (processedAs id) servers /\
      countWhere (isHistoryOf id) issued = countWhere (processedAs id) servers.
Proof.
  unfold MonitorServers, loadTemplate. rewrite !bind_run.
  set (w1 := (db_Exec SelectNotificationText w).2).
  assert (Hw1 : statements w1 = statements w ++ [SelectNotificationText]) by reflexivity.
  assert (Hrun : forall t, exists issued,
    statements (forEach (monitorServer E t) servers w1).2
      = statements w ++ SelectNotificationText :: issued /\
    Forall (zeroedIfOffline E) issued /\
    forall id,
      countWhere (isUpdateOf id) issued = countWhere (processedAs id) servers /\
      countWhere (isHistoryOf id) issued = countWhere (processedAs id) servers).
  { intros t. destruct (forEach_issued t servers w1) as (issued & Hs & Hz & Hc).
    exists issued. rewrite Hs, Hw1, <- app_assoc. auto. }
  destruct (settings_row E) as [t|]; [destruct (String.eqb t "")|]; apply Hrun.
Qed.

Lemma processedAs_once servers server :
  In server servers -> monitored server = true -> List.NoDup (List.map ID servers) ->
  countWhere (processedAs (ID server)) servers = 1%nat.
Proof.
  induction servers as [|s rest IH]; intros Hin Hm Hnd; [destruct Hin|].
  simpl in Hnd. apply List.NoDup_cons_iff in Hnd as [Hnotin Hnd].
  unfold countWhere in *. simpl List.filter.
  destruct Hin as [->|Hin].
  - unfold processedAs at 1. rewrite Hm, Z.eqb_refl. simpl. f_equal.
    assert (Hnone : forall l, ~ In (ID server) (List.map ID l) ->
              List.filter (processedAs (ID server)) l = []).
    { clear. induction l as [|x l IHl]; intros Hx; [reflexivity|].
      simpl. unfold processedAs at 1.
      destruct (Z.eqb_spec (ID x) (ID server)) as [Heq|Hne].
      - exfalso. apply Hx. left. exact Heq.
      - rewrite andb_false_r. apply IHl. intros Hl. apply Hx. now right. }
    now rewrite Hnone.
  - unfold processedAs at 1.
    destruct (Z.eqb_spec (ID s) (ID server)) as [Heq|Hne].
    + exfalso. apply Hnotin. rewrite Heq. now apply in_map.
    + rewrite andb_false_r. now apply IH.
Qed.

(** C3.  Every statement a cycle issues for an offline outcome carries zero
    metrics: a status-row update with [online = false] has its five metrics
    equal to 0 and an empty uptime, a history row with [online = false] has
    the rendering of 0 in its five metric columns (the history table has no
    uptime column). *)
Theorem offline_outcome_zeroed servers w :
  exists issued,
    statements (MonitorServers E servers w).2 = statements w ++ issued /\
    Forall (zeroedIfOffline E) issued.
Proof.
  destruct (MonitorServers_issued servers w) as (issued & Hs & Hz & _).
  exists (SelectNotificationText :: issued). split; [exact Hs|].
  constructor; [exact I|exact Hz].
Qed.

(** C6.  A cycle issues, for every server id, as many status-row updates and
    as many history rows as the list has servers with that id that are not
    skipped, whatever the outcome of the probe and of the detector; so, ids
    being distinct, exactly one of each for every server that is not
    skipped. *)
Theorem one_update_one_history servers w :
  exists issued,
    statements (MonitorServers E servers w).2 = statements w ++ issued /\
    (forall id,
       countWhere (isUpdateOf id) issued = countWhere (processedAs id) servers /\
       countWhere (isHistoryOf id) issued = countWhere (processedAs id) servers) /\
    (forall server,
       In server servers -> monitored server = true -> List.NoDup (List.map ID servers) ->
       countWhere (isUpdateOf (ID server)) issued = 1%nat /\
       countWhere (isHistoryOf (ID server)) issued = 1%nat).
Proof.
  destruct (MonitorServers_issued servers w) as (issued & Hs & _ & Hc).
  exists (SelectNotificationText :: issued). split; [exact Hs|].
  assert (Hc' : forall id,
    countWhere (isUpdateOf id) (SelectNotificationText :: issued)
      = countWhere (processedAs id) servers /\
    countWhere (isHistoryOf id) (SelectNotificationText :: issued)
      = countWhere (processedAs id) servers).
  { intros id. exact (Hc id). }
  split; [exact Hc'|].
  intros server Hin Hm Hnd. destruct (Hc' (ID server)) as [-> ->].
  split; now apply processedAs_once.
Qed.

End Cycle.

(* ------------------------------------------------------------------------- *)
(** ** Short circuit, optional metrics and notification *)

Section Outcomes.

Variable E : Env.
Implicit Types (server : Server) (w : World) (template : string).

Lemma append_inj (base a b : string) : base +:+ a = base +:+ b -> a = b.
Proof. induction base as [|c base IH]; simpl; intros H; [exact H|]. injection H. exact IH. Qed.

Lemma otherURLs_not_cpu base :
  Forall (fun u => ~ In u [cpuURL base]) (otherURLs base).
Proof.
  unfold otherURLs, cpuURL, uptimeURL, memURL, fsURL, gpuURL, tempURL.
  repeat constructor; intros [H|[]]; apply append_inj in H; discriminate H.
Qed.

(** C5.  When the CPU fetch of a server that is not skipped answers
    [ok = false], the iteration requests the CPU endpoint and nothing else
    (every fetcher starts with the GET of its endpoint, so the uptime,
    memory, filesystem, GPU and temperature fetchers did not run), and the
    statements issued are those of an offline outcome: status row and history
    row with [online = false], zero metrics and empty uptime. *)
Theorem cpu_failure_short_circuit template server w :
  monitored server = true ->
  (fetchCPUUsage E (baseURLOf server) w).1.1 = false ->
  let w' := (monitorServer E template server w).2 in
  exists requested,
    requests w' = requests w ++ requested /\
    requested = [cpuURL (baseURLOf server)] /\
    Forall (fun u => ~ In u requested) (otherURLs (baseURLOf server)) /\
    statements w' = statements w ++ offlineStatements E (ID server).
Proof.
  intros Hm Hcpu w'. subst w'.
  rewrite (monitorServer_cpu_failed E template server w Hm Hcpu).
  destruct (reportOffline_run E server false template
              (withRequests w [cpuURL (baseURLOf server)])) as (Hr & Hs & _).
  exists [cpuURL (baseURLOf server)].
  rewrite Hr, Hs. repeat split; auto. apply otherURLs_not_cpu.
Qed.

Lemma notificationIfDue_ext server online template w1 w2 :
  lastStatus w1 = lastStatus w2 ->
  notificationIfDue server online template w1 = notificationIfDue server online template w2.
Proof.
  intros H. unfold notificationIfDue.
  now destruct (shouldSendNotification_ext (ID server) online w1 w2 H) as [-> _].
Qed.

(** C1 (as the code has it).  For a server that is not skipped: when the
    probe ends offline, or ends online while the stored snapshot says
    offline, the detector is consulted with the server id and the new status,
    and a notification is dispatched exactly when it answers [true]; when the
    probe ends online and the stored snapshot says online, the detector is
    not consulted, its map is left as it is and nothing is dispatched.  So
    the first probe of a fresh process dispatches a notification unless the
    probe ends online and the snapshot says online. *)
Theorem notification_dispatch template server w :
  monitored server = true ->
  let online := probeOnline E (baseURLOf server) w in
  let w' := (monitorServer E template server w).2 in
  (online && Online server = true ->
     notifications w' = notifications w /\ lastStatus w' = lastStatus w) /\
  (online && Online server = false ->
     notifications w' = notifications w ++ notificationIfDue server online template w /\
     lastStatus w' = lastStatus (shouldSendNotification (ID server) online w).2) /\
  (lastStatus w !! ID server = None -> online && Online server = false ->
     notifications w' = notifications w ++ [statusMessage (Name server) online template]).
Proof.
  intros Hm online w'.
  assert (Hmain :
    (online && Online server = true ->
       notifications w' = notifications w /\ lastStatus w' = lastStatus w) /\
    (online && Online server = false ->
       notifications w' = notifications w ++ notificationIfDue server online template w /\
       lastStatus w' = lastStatus (shouldSendNotification (ID server) online w).2)).
  { subst online w'.
    destruct (monitorServer_branch E template server w Hm)
      as [urls [(Hp & _ & Hrun)|(Hp & Hrun)]]; rewrite Hp, Hrun.
    - split; [discriminate|]. intros _.
      destruct (reportOffline_run E server false template (withRequests w urls))
        as (_ & _ & Hn & Hl).
      rewrite Hn, Hl. split.
      + simpl. f_equal. now apply notificationIfDue_ext.
      + now apply shouldSendNotification_ext.
    - unfold finishOnline. destruct (Online server); simpl.
      + split; [|discriminate]. intros _. now rewrite app_nil_r.
      + split; [discriminate|]. intros _. unfold notificationIfDue.
        destruct (shouldSendNotification_frame (ID server) true (withRequests w urls))
          as (_ & _ & Hn & _).
        destruct (shouldSendNotification_ext (ID server) true (withRequests w urls) w
                    eq_refl) as [Hb Hl].
        rewrite <- Hb, <- Hl.
        destruct (shouldSendNotification (ID server) true (withRequests w urls))
          as [notify w1]; simpl in *.
        now rewrite Hn. }
  destruct Hmain as [H1 H2]. split; [exact H1|]. split; [exact H2|].
  intros Hnone Hc. destruct (H2 Hc) as [Hn _]. rewrite Hn. f_equal.
  unfold notificationIfDue.
  assert (Hd : (shouldSendNotification (ID server) online w).1 = true).
  { apply shouldSendNotification_result. now left. }
  now rewrite Hd.
Qed.

(** C9.  The GPU and the temperature fetcher answer [ok = true] in every
    case, with the value 0 on a transport error, on a status code other than
    200, on a body that does not decode and (temperature) on an empty sensor
    list; and when the three required fetches of a server succeed while the
    GPU fetch fails, the status row written has [online = true] and GPU
    usage 0. *)
Theorem optional_fetchers_tolerant :
  (forall base w,
     (fetchGPUUsage E base w).1.1 = true /\ (fetchTemperature E base w).1.1 = true) /\
  (forall base w,
     fetch_failed (json_gpu E) (http_get E (requests w) (gpuURL base)) ->
     (fetchGPUUsage E base w).1 = (true, zero)) /\
  (forall base w,
     fetch_failed (json_temp E) (http_get E (requests w) (tempURL base)) ->
     (fetchTemperature E base w).1 = (true, zero)) /\
  (forall base w body tempData,
     http_get E (requests w) (tempURL base) = Response StatusOK body ->
     Decode (json_temp E) body = Some tempData -> Composite tempData = [] ->
     (fetchTemperature E base w).1 = (true, zero)) /\
  (forall template server w,
     let base := baseURLOf server in
     monitored server = true ->
     (cpuAnswer E base w).1 = true ->
     (memAnswer E base w).1 = true ->
     (diskAnswer E base w).1 = true ->
     fetch_failed (json_gpu E)
       (http_get E (requests w ++ [cpuURL base; uptimeURL base; memURL base; fsURL base])
          (gpuURL base)) ->
     statements (monitorServer E template server w).2 =
     statements w ++
       [UpdateServer true (cpuAnswer E base w).2 (memAnswer E base w).2
          (diskAnswer E base w).2 zero (tempAnswer E base w).2
          (uptimeAnswer E base w) (ID server);
        InsertServerHistory (ID server) true
          (sprintf_2f E (cpuAnswer E base w).2) (sprintf_2f E (memAnswer E base w).2)
          (sprintf_2f E (diskAnswer E base w).2) (sprintf_2f E zero)
          (sprintf_2f E (tempAnswer E base w).2)]).
Proof.
  split; [intros; split; [apply fetchGPUUsage_ok|apply fetchTemperature_ok]|].
  split; [intros base w; apply fetchGPUUsage_failed|].
  split; [intros base w; apply fetchTemperature_failed|].
  split; [intros base w; apply fetchTemperature_no_sensor|].
  intros template server w base Hm Hcpu Hmem Hdisk Hgpu.
  rewrite monitorServer_statements, Hm.
  unfold outcomeStatements, probeOnline. fold base. rewrite Hcpu, Hmem, Hdisk. simpl.
  unfold onlineStatements.
  assert (Hg : gpuAnswer E base w = (true, zero)).
  { unfold gpuAnswer. now apply fetchGPUUsage_failed. }
  now rewrite Hg.
Qed.

End Outcomes.

(* ------------------------------------------------------------------------- *)
(** ** Concrete scenarios *)

Section Scenarios.

(** The filesystem endpoint answers 200 with an empty list: the fetcher
    answers [ok = true], not [ok = false]. *)
Lemma fetchDiskUsage_empty_list_is_ok :
  http_get noFs [] (fsURL nasURL) = Response StatusOK (Some "[]") /\
  Decode (json_fs noFs) (Some "[]") = Some [] /\
  (fetchDiskUsage noFs nasURL emptyWorld).1.1 = true /\
  (fetchDiskUsage noFs nasURL emptyWorld).1.1 <> false.
Proof. repeat split; discriminate. Qed.

Lemma fetchDiskUsage_failed_witness :
  http_get noFs [] (fsURL nasURL) = Response StatusOK (Some "[]") /\
  Decode (json_fs noFs) (Some "[]") = Some [] /\
  (fetchDiskUsage noFs nasURL emptyWorld).1 = (true, zero).
Proof.
  split; [reflexivity|]. split; [reflexivity|].
  apply (proj2 (fetchDiskUsage_failed noFs nasURL emptyWorld) (Some "[]")); reflexivity.
Defined.

(** With an empty filesystem list the host is persisted as online. *)
Example empty_list_host_online :
  statements (monitorServer noFs defaultTemplate (nas true) emptyWorld).2 =
  [UpdateServer true 42 55 0 0 38 "1.7 17:39" 7;
   InsertServerHistory 7 true "42.00" "55.00" "0.00" "0.00" "38.00"].
Proof. vm_compute. reflexivity. Qed.

Lemma cpu_failure_short_circuit_witness :
  monitored (nas true) = true /\
  (fetchCPUUsage dead (baseURLOf (nas true)) emptyWorld).1.1 = false /\
  exists requested,
    requests (monitorServer dead defaultTemplate (nas true) emptyWorld).2
      = requests emptyWorld ++ requested /\
    requested = [cpuURL (baseURLOf (nas true))] /\
    Forall (fun u => ~ In u requested) (otherURLs (baseURLOf (nas true))) /\
    statements (monitorServer dead defaultTemplate (nas true) emptyWorld).2
      = statements emptyWorld ++ offlineStatements dead (ID (nas true)).
Proof.
  split; [reflexivity|]. split; [reflexivity|].
  apply (cpu_failure_short_circuit dead defaultTemplate (nas true) emptyWorld);
    reflexivity.
Defined.

(** First probe of a fresh process, the host is up and its stored snapshot
    says online: the detector would answer [true], yet it is not consulted
    (its map stays empty) and nothing is dispatched. *)
Lemma first_probe_online_snapshot_silent :
  lastStatus emptyWorld !! ID (nas true) = None /\
  (shouldSendNotification (ID (nas true)) true emptyWorld).1 = true /\
  statements (monitorServer healthy defaultTemplate (nas true) emptyWorld).2 =
    [UpdateServer true 42 55 61 0 38 "1.7 17:39" 7;
     InsertServerHistory 7 true "42.00" "55.00" "61.00" "0.00" "38.00"] /\
  notifications (monitorServer healthy defaultTemplate (nas true) emptyWorld).2 = [] /\
  lastStatus (monitorServer healthy defaultTemplate (nas true) emptyWorld).2
    !! ID (nas true) = None.
Proof. vm_compute. repeat split. Qed.

Lemma notification_dispatch_witness :
  monitored (nas false) = true /\
  probeOnline healthy (baseURLOf (nas false)) emptyWorld && Online (nas false) = false /\
  lastStatus emptyWorld !! ID (nas false) = None /\
  notifications (monitorServer healthy defaultTemplate (nas false) emptyWorld).2 =
    ["The server nas is now online!"].
Proof.
  split; [reflexivity|]. split; [reflexivity|]. split; [reflexivity|].
  apply (proj2 (proj2 (notification_dispatch healthy defaultTemplate (nas false)
                         emptyWorld eq_refl))); reflexivity.
Defined.

Lemma optional_fetchers_tolerant_witness :
  monitored (nas false) = true /\
  fetch_failed (json_gpu healthy)
    (http_get healthy [cpuURL nasURL; uptimeURL nasURL; memURL nasURL; fsURL nasURL]
       (gpuURL nasURL)) /\
  statements (monitorServer healthy defaultTemplate (nas false) emptyWorld).2 =
    [UpdateServer true 42 55 61 0 38 "1.7 17:39" 7;
     InsertServerHistory 7 true "42.00" "55.00" "61.00" "0.00" "38.00"].
Proof.
  assert (Hgpu : fetch_failed (json_gpu healthy)
            (http_get healthy [cpuURL nasURL; uptimeURL nasURL; memURL nasURL; fsURL nasURL]
               (gpuURL nasURL))).
  { right. exists 404, (Some "not found"). split; [reflexivity|]. left. discriminate. }
  split; [reflexivity|]. split; [exact Hgpu|].
  exact (proj2 (proj2 (proj2 (proj2 (optional_fetchers_tolerant healthy))))
           defaultTemplate (nas false) emptyWorld eq_refl eq_refl eq_refl eq_refl Hgpu).
Defined.

Lemma one_update_one_history_witness :
  In (nas false) [spare; nas false] /\
  monitored (nas false) = true /\
  List.NoDup (List.map ID [spare; nas false]) /\
  exists issued,
    statements (MonitorServers healthy [spare; nas false] emptyWorld).2 = issued /\
    countWhere (isUpdateOf (ID (nas false))) issued = 1%nat /\
    countWhere (isHistoryOf (ID (nas false))) issued = 1%nat.
Proof.
  assert (Hin : In (nas false) [spare; nas false]) by (right; left; reflexivity).
  assert (Hnd : List.NoDup (List.map ID [spare; nas false])).
  { simpl. repeat constructor; simpl; intuition discriminate. }
  split; [exact Hin|]. split; [reflexivity|]. split; [exact Hnd|].
  destruct (one_update_one_history healthy [spare; nas false] emptyWorld)
    as (issued & Hs & _ & Hone).
  exists issued. split; [exact Hs|].
  exact (Hone (nas false) Hin eq_refl Hnd).
Defined.

(** The end-to-end scenario: the host was recorded offline, all required
    fetches succeed, the uptime is [0:05:10]. *)
Example end_to_end :
  let w0 := mkWorld [] [] [] {[ 7 := false ]} in
  let w' := (MonitorServers healthy [nas false] w0).2 in
  statements w' =
    [SelectNotificationText;
     UpdateServer true 42 55 61 0 38 "1.7 17:39" 7;
     InsertServerHistory 7 true "42.00" "55.00" "61.00" "0.00" "38.00"] /\
  notifications w' = ["The server nas is now online!"] /\
  lastStatus w' !! 7 = Some true.
Proof. vm_compute. repeat split. Qed.

End Scenarios.

(* ------------------------------------------------------------------------- *)
(** ** The notification message *)

Section Message.

Lemma HasPrefix_app (p r : string) : HasPrefix (p +:+ r) p = true.
Proof. induction p as [|c p IH]; simpl; [now destruct r|]. now rewrite Ascii.eqb_refl. Qed.

Lemma replace_from_skip (old new p r : string) :
  replace_from old new (p +:+ r) (String.length p) = replace_from old new r 0.
Proof.
  induction p as [|c p IH]; simpl; [|exact IH].
  destruct r; reflexivity.
Qed.

(** [ReplaceAll] is the leftmost, non-overlapping replacement: at an
    occurrence of [old] the replacement is emitted and the scan resumes
    behind the occurrence; elsewhere one byte is copied. *)
Lemma ReplaceAll_hit (o : ascii) (old' new r : string) :
  ReplaceAll (String o old' +:+ r) (String o old') new
  = new +:+ ReplaceAll r (String o old') new.
Proof.
  unfold ReplaceAll.
  change (String o old' +:+ r) with (String o (old' +:+ r)).
  cbn [replace_from].
  change (String o (old' +:+ r)) with (String o old' +:+ r).
  rewrite HasPrefix_app.
  replace (String.length (String o old') - 1)%nat with (String.length old')
    by (simpl; lia).
  now rewrite replace_from_skip.
Qed.

Lemma ReplaceAll_miss (c : ascii) (r old new : string) :
  HasPrefix (String c r) old = false ->
  ReplaceAll (String c r) old new = String c (ReplaceAll r old new).
Proof. intros H. unfold ReplaceAll. cbn [replace_from]. now rewrite H. Qed.

Section NoOccurrenceLeft.

(** [old] starts with a byte [o] that occurs neither in the rest of [old]
    nor in [new], and the first byte [n] of [new] does not occur in [old]. *)
Variables (o n : ascii) (old' new' : string).
Hypothesis o_not_in_old' : occurs o old' = false.
Hypothesis o_not_in_new : occurs o (String n new') = false.
Hypothesis n_not_in_old' : occurs n old' = false.

Let old := String o old'.
Let new := String n new'.

Lemma prefix_survives (p t : string) :
  occurs o p = false -> occurs n p = false ->
  HasPrefix (replace_from old new t 0) p = true -> HasPrefix t p = true.
Proof.
  revert t. induction p as [|a p IH]; intros t Ho Hn H; [now destruct t|].
  simpl in Ho, Hn. apply orb_false_iff in Ho as [Hao Ho].
  apply orb_false_iff in Hn as [Han Hn].
  destruct t as [|c t]; [discriminate H|].
  cbn [replace_from] in H.
  destruct (HasPrefix (String c t) old) eqn:Hp.
  - unfold new in H. simpl in H. now rewrite Han in H.
  - simpl in *. destruct (Ascii.eqb a c); [|discriminate H]. now apply IH.
Qed.

Lemma Contains_new_app (t : string) (s : string) :
  occurs o s = false -> Contains (s +:+ t) old = Contains t old.
Proof.
  induction s as [|c s IH]; intros H; [reflexivity|].
  simpl in H. apply orb_false_iff in H as [Hc H].
  change (String c s +:+ t) with (String c (s +:+ t)).
  cbn [Contains]. rewrite (IH H).
  unfold old at 1. cbn [HasPrefix]. rewrite Ascii.eqb_sym, Hc. reflexivity.
Qed.

Lemma replace_leaves_none (s : string) (k : nat) :
  Contains (replace_from old new s k) old = false.
Proof.
  revert k. induction s as [|c s IH]; intros k; [reflexivity|].
  cbn [replace_from]. destruct k as [|k]; [|apply IH].
  destruct (HasPrefix (String c s) old) eqn:Hp.
  - rewrite Contains_new_app; [apply IH|exact o_not_in_new].
  - cbn [Contains]. rewrite IH, orb_false_r.
    change (HasPrefix (String c (replace_from old new s 0)) old)
      with (if Ascii.eqb o c then HasPrefix (replace_from old new s 0) old' else false).
    destruct (Ascii.eqb o c) eqn:Hoc; [|reflexivity].
    destruct (HasPrefix (replace_from old new s 0) old') eqn:Hq; [|reflexivity].
    apply prefix_survives in Hq; [|assumption..].
    unfold old in Hp. cbn [HasPrefix] in Hp. rewrite Hoc in Hp. congruence.
Qed.

End NoOccurrenceLeft.

Lemma status_replaced (s : string) (online : bool) :
  Contains (ReplaceAll s "!status" (if online then "online" else "offline")) "!status"
  = false.
Proof.
  unfold ReplaceAll. destruct online.
  - exact (replace_leaves_none "!" "o" "status" "nline" eq_refl eq_refl eq_refl s 0).
  - exact (replace_leaves_none "!" "o" "status" "ffline" eq_refl eq_refl eq_refl s 0).
Qed.

(** C10.  The message handed to the sender is the template with every
    occurrence of [!name] replaced by the server name and then, in the
    result, every occurrence of [!status] replaced by [online] or
    [offline]; no occurrence of [!status] is left, wherever it came from, so
    one inside the server name is replaced as well. *)
Theorem message_substitution :
  (forall server online template w,
     notifications (sendStatusChangeNotification server online template w).2 =
     notifications w ++
       [ReplaceAll (ReplaceAll template "!name" (Name server)) "!status"
          (if online then "online" else "offline")]) /\
  (forall name online template,
     Contains (statusMessage name online template) "!status" = false) /\
  (forall name online r,
     statusMessage name online ("!name" +:+ r) =
     ReplaceAll (name +:+ ReplaceAll r "!name" name) "!status"
       (if online then "online" else "offline")) /\
  statusMessage "a!statusb" true "The server !name is now !status!"
    = "The server aonlineb is now online!".
Proof.
  split; [reflexivity|]. split; [|split; [|reflexivity]].
  - intros name online template. unfold statusMessage. apply status_replaced.
  - intros name online r. unfold statusMessage.
    now rewrite (ReplaceAll_hit "!" "name" name r).
Qed.

End Message.

(* ------------------------------------------------------------------------- *)
(** ** The uptime normaliser: failures *)

Section UptimeFailure.

Variable now : Time.

Lemma formatSince_failure uptimeStr days timeStr :
  Sscanf timeStr "%d:%d:%d" = None -> formatSince now uptimeStr days timeStr = uptimeStr.
Proof. intros H. unfold formatSince. now rewrite H. Qed.

(** C8.  Whenever a parsing step fails, [formatUptime] returns its argument
    unchanged; the function is total, so no error is raised. *)
Theorem formatUptime_failure uptimeStr :
  parseFails uptimeStr -> formatUptime now uptimeStr = uptimeStr.
Proof.
  unfold parseFails, formatUptime.
  destruct (Split uptimeStr ", ") as [|part0 [|part1 [|part2 rest]]]; auto.
  - intros H. now apply formatSince_failure.
  - intros [[H1 H2]|H].
    + now rewrite H1, H2.
    + repeat match goal with
             | |- context [match ?x with _ => _ end] => destruct x
             end; auto using formatSince_failure.
Qed.

End UptimeFailure.

Lemma formatUptime_failure_witness :
  parseFails "garbage" /\ formatUptime sampleNow "garbage" = "garbage".
Proof.
  assert (H : parseFails "garbage") by reflexivity.
  split; [exact H|]. exact (formatUptime_failure sampleNow "garbage" H).
Defined.

Example formatUptime_three_parts now : formatUptime now "1 day, 2 days, 3:00:00"
  = "1 day, 2 days, 3:00:00".
Proof. reflexivity. Qed.

Example formatUptime_empty now : formatUptime now "" = "".
Proof. reflexivity. Qed.

Example formatUptime_weeks now : formatUptime now "2 weeks, 3:00:00" = "2 weeks, 3:00:00".
Proof. reflexivity. Qed.

(* ------------------------------------------------------------------------- *)
(** ** The uptime normaliser: well-formed texts *)

Section Scanning.

Lemma append_cons (c : ascii) (s t : string) : String c s +:+ t = String c (s +:+ t).
Proof. reflexivity. Qed.

Lemma append_nil_l (t : string) : "" +:+ t = t.
Proof. reflexivity. Qed.

Lemma append_nil_r (s : string) : s +:+ "" = s.
Proof. induction s as [|c s IH]; [reflexivity|]. now rewrite append_cons, IH. Qed.

Lemma append_assoc (a b c : string) : (a +:+ b) +:+ c = a +:+ (b +:+ c).
Proof. induction a as [|x a IH]; [reflexivity|]. now rewrite !append_cons, IH. Qed.

Lemma occurs_app (c : ascii) (a b : string) :
  occurs c (a +:+ b) = occurs c a || occurs c b.
Proof.
  induction a as [|x a IH]; [reflexivity|].
  rewrite append_cons. simpl. now rewrite IH, orb_assoc.
Qed.

(** A digit is no line feed, no blank, no sign, no comma and no colon. *)
Lemma digit_class (c : ascii) :
  isDigit c = true ->
  Ascii.eqb c newline = false /\ isSpace c = false /\ isSign c = false /\
  Ascii.eqb c "," = false /\ 0 <= digit_value c <= 9.
Proof.
  destruct c as [[] [] [] [] [] [] [] []]; intros H; try discriminate H;
    vm_compute; repeat split; congruence.
Qed.

Lemma allDigits_no_comma (s : string) : allDigits s = true -> occurs "," s = false.
Proof.
  induction s as [|c s IH]; [reflexivity|]. simpl.
  intros H. apply andb_true_iff in H as [Hc Hs].
  destruct (digit_class c Hc) as (_ & _ & _ & Hcomma & _).
  now rewrite Hcomma, IH.
Qed.

Lemma isNumber_allDigits (s : string) : isNumber s = true -> allDigits s = true.
Proof. now destruct s. Qed.

(** *** [strings.Split] on texts with at most one separator *)

Lemma split_no_sep (s cur : string) :
  occurs "," s = false -> split_from ", " s cur 0 = [GoStrings.rev cur +:+ s].
Proof.
  revert cur. induction s as [|c s IH]; intros cur H.
  - simpl. now rewrite append_nil_r.
  - simpl in H. apply orb_false_iff in H as [Hc H].
    cbn [split_from HasPrefix]. rewrite Ascii.eqb_sym, Hc.
    rewrite (IH _ H). cbn [GoStrings.rev]. now rewrite append_assoc.
Qed.

Lemma split_one_sep (a b cur : string) :
  occurs "," a = false -> occurs "," b = false ->
  split_from ", " (a +:+ ", " +:+ b) cur 0 = [GoStrings.rev cur +:+ a; b].
Proof.
  revert cur. induction a as [|c a IH]; intros cur Ha Hb.
  - rewrite append_nil_l, append_nil_r.
    change (", " +:+ b) with (String "," (String " " b)).
    cbn [split_from HasPrefix]. simpl.
    destruct b as [|x b]; [reflexivity|].
    f_equal. exact (split_no_sep (String x b) "" Hb).
  - simpl in Ha. apply orb_false_iff in Ha as [Hc Ha].
    rewrite append_cons. cbn [split_from HasPrefix]. rewrite Ascii.eqb_sym, Hc.
    rewrite (IH _ Ha Hb). cbn [GoStrings.rev]. now rewrite append_assoc.
Qed.

Lemma Split_no_sep (s : string) : occurs "," s = false -> Split s ", " = [s].
Proof. intros H. unfold Split. now rewrite split_no_sep. Qed.

Lemma Split_one_sep (a b : string) :
  occurs "," a = false -> occurs "," b = false -> Split (a +:+ ", " +:+ b) ", " = [a; b].
Proof. intros Ha Hb. unfold Split. now rewrite split_one_sep. Qed.

(** *** Scanning a number *)

Lemma decimalFrom_lower (s : string) (acc : Z) :
  allDigits s = true -> 0 <= acc -> acc <= decimalFrom acc s.
Proof.
  revert acc. induction s as [|c s IH]; intros acc H Hacc; [simpl; lia|].
  simpl in H. apply andb_true_iff in H as [Hc Hs].
  destruct (digit_class c Hc) as (_ & _ & _ & _ & Hv).
  simpl. specialize (IH (10 * acc + digit_value c) Hs). lia.
Qed.

Lemma accept_digits_number (s rest : string) (acc : Z) :
  allDigits s = true -> startsWithDigit rest = false ->
  accept_digits (s +:+ rest) acc = (decimalFrom acc s, rest).
Proof.
  revert acc. induction s as [|c s IH]; intros acc H Hr.
  - rewrite append_nil_l. destruct rest as [|x rest]; [reflexivity|].
    simpl in Hr. simpl. now rewrite Hr.
  - simpl in H. apply andb_true_iff in H as [Hc Hs].
    rewrite append_cons. cbn [accept_digits]. rewrite Hc. now apply IH.
Qed.

Lemma SkipSpace_number (s rest : string) :
  isNumber s = true -> SkipSpace (s +:+ rest) = Some (s +:+ rest).
Proof.
  destruct s as [|c s]; [discriminate|]. simpl. intros H.
  apply andb_true_iff in H as [Hc _].
  destruct (digit_class c Hc) as (Hnl & Hsp & _).
  rewrite append_cons. cbn [SkipSpace]. now rewrite Hnl, Hsp.
Qed.

Lemma scanInt_number (s rest : string) :
  isNumber s = true -> startsWithDigit rest = false -> decimal s <= int64_max ->
  scanInt (s +:+ rest) = Some (decimal s, rest).
Proof.
  intros Hn Hr Hmax. unfold scanInt. rewrite (SkipSpace_number s rest Hn).
  pose proof (isNumber_allDigits s Hn) as Hd.
  destruct s as [|c s]; [discriminate|].
  rewrite append_cons.
  pose proof Hd as Hd'. simpl in Hd'. apply andb_true_iff in Hd' as [Hc _].
  destruct (digit_class c Hc) as (_ & _ & Hsign & _).
  rewrite Hsign, Hc. rewrite <- append_cons.
  rewrite (accept_digits_number (String c s) rest 0 Hd Hr).
  fold (decimal (String c s)).
  pose proof (decimalFrom_lower (String c s) 0 Hd ltac:(lia)) as Hlow.
  fold (decimal (String c s)) in Hlow.
  assert (Hrange : ((int64_min <=? decimal (String c s))
                    && (decimal (String c s) <=? int64_max))%Z = true).
  { apply andb_true_iff. split; apply Z.leb_le; [|exact Hmax].
    unfold int64_min. lia. }
  now rewrite Hrange.
Qed.

(** The verb [%d] on a number. *)
Lemma doScanf_number (fr s rest : string) :
  isNumber s = true -> startsWithDigit rest = false -> decimal s <= int64_max ->
  doScanf (String "%" (String "d" fr)) (s +:+ rest)
  = match doScanf fr rest with
    | None => None
    | Some vs => Some (decimal s :: vs)
    end.
Proof.
  intros Hn Hr Hmax. cbn [doScanf]. simpl Ascii.eqb. cbv iota.
  now rewrite (SkipSpace_number s rest Hn), (scanInt_number s rest Hn Hr Hmax).
Qed.

End Scanning.

Section WellFormed.

Variable now : Time.

Lemma wrap64_small (z : Z) : int64_min <= z <= int64_max -> wrap64 z = z.
Proof.
  unfold wrap64, int64_min, int64_max.
  change (2 ^ 63) with 9223372036854775808.
  change (2 ^ 64) with 18446744073709551616.
  intros H. rewrite Z.mod_small; lia.
Qed.

Lemma decimal_nonneg (s : string) : isNumber s = true -> 0 <= decimal s.
Proof.
  intros H. apply (decimalFrom_lower s 0); [now apply isNumber_allDigits|lia].
Qed.

(** Below the 64-bit limit the duration is computed without wrap-around. *)
Lemma duration_exact (days hours minutes seconds : Z) :
  0 <= days -> 0 <= hours -> 0 <= minutes -> 0 <= seconds ->
  days * 24 * Hour + hours * Hour + minutes * Minute + seconds * Second <= int64_max ->
  neg64
    (add64 (add64 (add64 (mul64 (mul64 days 24) Hour) (mul64 hours Hour))
                  (mul64 minutes Minute))
           (mul64 seconds Second))
  = - (days * 24 * Hour + hours * Hour + minutes * Minute + seconds * Second).
Proof.
  unfold neg64, add64, mul64, Hour, Minute, Second, int64_max.
  change (2 ^ 63) with 9223372036854775808.
  intros Hd Hh Hm Hs Hmax.
  assert (Hb : forall z, 0 <= z <= 9223372036854775807 -> wrap64 z = z).
  { intros z Hz. apply wrap64_small. unfold int64_min, int64_max.
    change (2 ^ 63) with 9223372036854775808. lia. }
  rewrite (Hb (days * 24)) by lia.
  rewrite (Hb (days * 24 * _)) by lia.
  rewrite (Hb (hours * _)) by lia.
  rewrite (Hb (minutes * _)) by lia.
  rewrite (Hb (seconds * _)) by lia.
  rewrite (Hb (days * 24 * _ + hours * _)) by lia.
  rewrite (Hb (days * 24 * _ + hours * _ + minutes * _)) by lia.
  rewrite (Hb (days * 24 * _ + hours * _ + minutes * _ + seconds * _)) by lia.
  apply wrap64_small. unfold int64_min, int64_max.
  change (2 ^ 63) with 9223372036854775808. lia.
Qed.

Lemma doScanf_colon (fr input : string) :
  doScanf (String ":" fr) (String ":" input) = doScanf fr input.
Proof. destruct fr; reflexivity. Qed.

Lemma Sscanf_time (H MM SS : string) :
  isNumber H = true -> isNumber MM = true -> isNumber SS = true ->
  decimal H <= int64_max -> decimal MM <= int64_max -> decimal SS <= int64_max ->
  Sscanf (H +:+ ":" +:+ MM +:+ ":" +:+ SS) "%d:%d:%d"
  = Some [decimal H; decimal MM; decimal SS].
Proof.
  intros HH HM HS BH BM BS. unfold Sscanf.
  rewrite (doScanf_number ":%d:%d" H (":" +:+ MM +:+ ":" +:+ SS) HH eq_refl BH).
  change (":" +:+ MM +:+ ":" +:+ SS) with (String ":" (MM +:+ ":" +:+ SS)).
  rewrite doScanf_colon.
  rewrite (doScanf_number ":%d" MM (":" +:+ SS) HM eq_refl BM).
  change (":" +:+ SS) with (String ":" SS).
  rewrite doScanf_colon.
  rewrite <- (append_nil_r SS) at 1.
  now rewrite (doScanf_number "" SS "" HS eq_refl BS).
Qed.

Lemma Sscanf_days (N : string) :
  isNumber N = true -> decimal N <= int64_max ->
  Sscanf (N +:+ " days") "%d days" = Some [decimal N].
Proof.
  intros HN BN. unfold Sscanf.
  now rewrite (doScanf_number " days" N " days" HN eq_refl BN).
Qed.

Lemma Sscanf_day (N : string) :
  isNumber N = true -> decimal N <= int64_max ->
  Sscanf (N +:+ " day") "%d days" = None /\
  Sscanf (N +:+ " day") "%d day" = Some [decimal N].
Proof.
  intros HN BN. unfold Sscanf. split.
  - now rewrite (doScanf_number " days" N " day" HN eq_refl BN).
  - now rewrite (doScanf_number " day" N " day" HN eq_refl BN).
Qed.

Lemma time_no_comma (H MM SS : string) :
  isNumber H = true -> isNumber MM = true -> isNumber SS = true ->
  occurs "," (H +:+ ":" +:+ MM +:+ ":" +:+ SS) = false.
Proof.
  intros HH HM HS. rewrite !occurs_app.
  rewrite (allDigits_no_comma H), (allDigits_no_comma MM), (allDigits_no_comma SS)
    by now apply isNumber_allDigits.
  reflexivity.
Qed.

Lemma formatSince_exact uptimeStr days (H MM SS : string) :
  isNumber H = true -> isNumber MM = true -> isNumber SS = true ->
  0 <= days ->
  days * 24 * Hour + decimal H * Hour + decimal MM * Minute + decimal SS * Second
    <= int64_max ->
  formatSince now uptimeStr days (H +:+ ":" +:+ MM +:+ ":" +:+ SS) =
  Format_2_1_15_04
    (Add now (- (days * 24 * Hour + decimal H * Hour + decimal MM * Minute
                 + decimal SS * Second))).
Proof.
  intros HH HM HS Hd Hmax.
  pose proof (decimal_nonneg H HH) as PH.
  pose proof (decimal_nonneg MM HM) as PM.
  pose proof (decimal_nonneg SS HS) as PS.
  unfold formatSince.
  rewrite Sscanf_time; try assumption;
    try (revert Hmax; unfold Hour, Minute, Second, int64_max;
         change (2 ^ 63) with 9223372036854775808; lia).
  now rewrite duration_exact.
Qed.

(** C7 (within the range of a 64-bit duration).  For a well-formed uptime
    text whose elapsed time, in nanoseconds, fits a signed 64-bit integer,
    [formatUptime] returns the instant [now] minus
    [N * 24h + H * 1h + M * 1min + S * 1s] in the layout
    day.month hour:minute. *)
Theorem formatUptime_well_formed (d : DayPart) (H MM SS : string) :
  wellFormed d H MM SS = true ->
  elapsed d H MM SS <= int64_max ->
  formatUptime now (uptimeText d H MM SS) =
  Format_2_1_15_04 (Add now (- elapsed d H MM SS)).
Proof.
  unfold wellFormed, elapsed. intros Hwf Hmax.
  apply andb_true_iff in Hwf as [Hwf HS].
  apply andb_true_iff in Hwf as [Hwf HM].
  apply andb_true_iff in Hwf as [HN HH].
  pose proof (decimal_nonneg H HH) as PH.
  pose proof (decimal_nonneg MM HM) as PM.
  pose proof (decimal_nonneg SS HS) as PS.
  pose proof (time_no_comma H MM SS HH HM HS) as Htime.
  unfold formatUptime.
  destruct d as [|N plural]; simpl uptimeText; simpl dayCount in *.
  - rewrite (Split_no_sep _ Htime). now apply formatSince_exact.
  - pose proof (decimal_nonneg N HN) as PN.
    assert (BN : decimal N <= int64_max).
    { revert Hmax. unfold Hour, Minute, Second, int64_max.
      change (2 ^ 63) with 9223372036854775808. lia. }
    rewrite Split_one_sep; [|rewrite occurs_app, allDigits_no_comma
                              by (now apply isNumber_allDigits); now destruct plural
                            |exact Htime].
    destruct plural.
    + rewrite (Sscanf_days N HN BN). now apply formatSince_exact.
    + destruct (Sscanf_day N HN BN) as [-> ->]. now apply formatSince_exact.
Qed.

End WellFormed.

Lemma formatUptime_well_formed_witness :
  wellFormed (Days "3" true) "3" "52" "36" = true /\
  elapsed (Days "3" true) "3" "52" "36" <= int64_max /\
  uptimeText (Days "3" true) "3" "52" "36" = "3 days, 3:52:36" /\
  formatUptime sampleNow "3 days, 3:52:36" = "28.6 13:52".
Proof.
  assert (Hle : elapsed (Days "3" true) "3" "52" "36" <= int64_max)
    by (vm_compute; discriminate).
  split; [reflexivity|]. split; [exact Hle|]. split; [reflexivity|].
  exact (formatUptime_well_formed sampleNow (Days "3" true) "3" "52" "36" eq_refl Hle).
Defined.

(** A well-formed text beyond the range of a 64-bit duration: 106752 days
    is more than 2^63 nanoseconds, the duration wraps around to a negative
    value and the instant returned lies in the future. *)
Lemma formatUptime_wraps_around :
  wellFormed (Days "106752" true) "0" "00" "00" = true /\
  uptimeText (Days "106752" true) "0" "00" "00" = "106752 days, 0:00:00" /\
  Format_2_1_15_04 (Add sampleNow (- elapsed (Days "106752" true) "0" "00" "00"))
    = "22.3 17:44" /\
  formatUptime sampleNow "106752 days, 0:00:00" = "11.10 17:19" /\
  formatUptime sampleNow (uptimeText (Days "106752" true) "0" "00" "00") <>
  Format_2_1_15_04 (Add sampleNow (- elapsed (Days "106752" true) "0" "00" "00")).
Proof. vm_compute. repeat split; discriminate. Qed.

(* ------------------------------------------------------------------------- *)
(** * Further properties of the package *)

(** ** The fetchers *)

Section FetcherFacts.

Variable E : Env.
Implicit Types (base : string) (w : World).

(** X1.  Each of the six fetchers issues exactly one GET, to its own
    endpoint, whatever the reply, and leaves the SQL statements, the
    notifications and the detector map as they are. *)
Theorem fetchers_single_request base w :
  (fetchCPUUsage E base w).2 = withRequests w [cpuURL base] /\
  (fetchUptime E base w).2 = withRequests w [uptimeURL base] /\
  (fetchMemoryUsage E base w).2 = withRequests w [memURL base] /\
  (fetchDiskUsage E base w).2 = withRequests w [fsURL base] /\
  (fetchGPUUsage E base w).2 = withRequests w [gpuURL base] /\
  (fetchTemperature E base w).2 = withRequests w [tempURL base].
Proof.
  repeat split.
  - apply fetchCPUUsage_world.
  - apply fetchUptime_world.
  - apply fetchMemoryUsage_world.
  - apply fetchDiskUsage_world.
  - apply fetchGPUUsage_world.
  - apply fetchTemperature_world.
Qed.

Lemma fetch_value_cases {A} (dec : string -> option A) (get : A -> float64)
    (res : bool * float64) (reply : HttpReply) :
  res = match reply with
        | TransportError => (false, zero)
        | Response code body =>
            if negb (Z.eqb code StatusOK) then (false, zero)
            else match Decode dec body with
                 | None => (false, zero)
                 | Some d => (true, get d)
                 end
        end ->
  (res.1 = false -> res.2 = zero) /\
  (forall body d, reply = Response StatusOK body -> Decode dec body = Some d ->
     res = (true, get d)).
Proof.
  intros ->. split.
  - destruct reply as [|code body]; [reflexivity|].
    destruct (negb (Z.eqb code StatusOK)); [reflexivity|].
    destruct (Decode dec body); [discriminate|reflexivity].
  - intros body d -> Hd. simpl. now rewrite Hd.
Qed.

Lemma fetchCPUUsage_cases base w :
  (fetchCPUUsage E base w).1 =
  match http_get E (requests w) (cpuURL base) with
  | TransportError => (false, zero)
  | Response code body =>
      if negb (Z.eqb code StatusOK) then (false, zero)
      else match Decode (json_cpu E) body with
           | None => (false, zero)
           | Some d => (true, cpu_Total d)
           end
  end.
Proof.
  unfold fetchCPUUsage, cpuURL. rewrite bind_run, client_Get_run; simpl.
  destruct (http_get E (requests w) (base +:+ "/api/4/cpu")) as [|code body];
    [reflexivity|].
  destruct (negb (Z.eqb code StatusOK)); [reflexivity|].
  now destruct (Decode (json_cpu E) body).
Qed.

Lemma fetchMemoryUsage_cases base w :
  (fetchMemoryUsage E base w).1 =
  match http_get E (requests w) (memURL base) with
  | TransportError => (false, zero)
  | Response code body =>
      if negb (Z.eqb code StatusOK) then (false, zero)
      else match Decode (json_mem E) body with
           | None => (false, zero)
           | Some d => (true, mem_Percent d)
           end
  end.
Proof.
  unfold fetchMemoryUsage, memURL. rewrite bind_run, client_Get_run; simpl.
  destruct (http_get E (requests w) (base +:+ "/api/4/mem")) as [|code body];
    [reflexivity|].
  destruct (negb (Z.eqb code StatusOK)); [reflexivity|].
  now destruct (Decode (json_mem E) body).
Qed.

(** X2.  The CPU and the memory fetcher answer [ok = false] exactly on a
    transport error, a status code other than 200 or a body that does not
    decode, and the value is 0 then; on a 200 reply that decodes they answer
    [ok = true] with the decoded total, respectively percentage. *)
Theorem required_fetchers_result base w :
  ((fetchCPUUsage E base w).1.1 = false <->
     fetch_failed (json_cpu E) (http_get E (requests w) (cpuURL base))) /\
  ((fetchCPUUsage E base w).1.1 = false -> (fetchCPUUsage E base w).1.2 = zero) /\
  (forall body d,
     http_get E (requests w) (cpuURL base) = Response StatusOK body ->
     Decode (json_cpu E) body = Some d ->
     (fetchCPUUsage E base w).1 = (true, cpu_Total d)) /\
  ((fetchMemoryUsage E base w).1.1 = false <->
     fetch_failed (json_mem E) (http_get E (requests w) (memURL base))) /\
  ((fetchMemoryUsage E base w).1.1 = false -> (fetchMemoryUsage E base w).1.2 = zero) /\
  (forall body d,
     http_get E (requests w) (memURL base) = Response StatusOK body ->
     Decode (json_mem E) body = Some d ->
     (fetchMemoryUsage E base w).1 = (true, mem_Percent d)).
Proof.
  destruct (fetch_value_cases (json_cpu E) cpu_Total _ _ (fetchCPUUsage_cases base w))
    as [Hc0 Hc1].
  destruct (fetch_value_cases (json_mem E) mem_Percent _ _ (fetchMemoryUsage_cases base w))
    as [Hm0 Hm1].
  split; [apply fetchCPUUsage_failed|]. split; [exact Hc0|]. split; [exact Hc1|].
  split; [apply fetchMemoryUsage_failed|]. split; [exact Hm0|exact Hm1].
Qed.

(** X3.  From a list-shaped answer only the first entry is used: the
    filesystem fetcher answers the percentage of the first filesystem, the
    temperature fetcher the value of the first composite sensor, whatever
    follows in the list. *)
Theorem first_entry_used base w :
  (forall body first others,
     http_get E (requests w) (fsURL base) = Response StatusOK body ->
     Decode (json_fs E) body = Some (first :: others) ->
     (fetchDiskUsage E base w).1 = (true, fs_Percent first)) /\
  (forall body tempData first others,
     http_get E (requests w) (tempURL base) = Response StatusOK body ->
     Decode (json_temp E) body = Some tempData ->
     Composite tempData = first :: others ->
     (fetchTemperature E base w).1 = (true, sensor_Value first)).
Proof.
  split.
  - intros body first others Hr Hd. unfold fetchDiskUsage, fsURL in *.
    rewrite bind_run, client_Get_run; simpl. rewrite Hr; simpl. now rewrite Hd.
  - intros body tempData first others Hr Hd Hc. unfold fetchTemperature, tempURL in *.
    rewrite bind_run, client_Get_run; simpl. rewrite Hr; simpl. now rewrite Hd, Hc.
Qed.

End FetcherFacts.

(** ** The uptime fetcher *)

Section UptimeFetcher.

Variable E : Env.
Implicit Types (base : string) (w : World).

Lemma rev_app (a b : string) :
  GoStrings.rev (a +:+ b) = GoStrings.rev b +:+ GoStrings.rev a.
Proof.
  induction a as [|c a IH].
  - rewrite append_nil_l. now rewrite append_nil_r.
  - rewrite append_cons. cbn [GoStrings.rev]. now rewrite IH, append_assoc.
Qed.

Lemma rev_involutive (s : string) : GoStrings.rev (GoStrings.rev s) = s.
Proof.
  induction s as [|c s IH]; [reflexivity|].
  cbn [GoStrings.rev]. rewrite rev_app, IH. reflexivity.
Qed.

Lemma TrimLeft1_keep (s : string) (q : ascii) :
  HasPrefix s (String q "") = false -> TrimLeft1 s q = s.
Proof.
  destruct s as [|c s]; [reflexivity|]. cbn [HasPrefix TrimLeft1].
  rewrite Ascii.eqb_sym. destruct (Ascii.eqb c q); [|reflexivity].
  now destruct s.
Qed.

(** [Trim] takes one pair of surrounding quotes off a text that neither
    starts nor ends with a quote. *)
Lemma Trim1_quoted (s : string) (q : ascii) :
  HasPrefix s (String q "") = false -> HasSuffix s (String q "") = false ->
  Trim1 (String q (s +:+ String q "")) q = s.
Proof.
  intros Hp Hs. unfold Trim1. cbn [TrimLeft1]. rewrite Ascii.eqb_refl.
  destruct s as [|c s].
  - rewrite append_nil_l. cbn [TrimLeft1]. now rewrite Ascii.eqb_refl.
  - rewrite (TrimLeft1_keep (String c s +:+ String q "") q).
    2:{ rewrite append_cons. cbn [HasPrefix] in *.
        destruct (Ascii.eqb q c); [|reflexivity]. now destruct s. }
    rewrite rev_app. change (GoStrings.rev (String q "")) with (String q "").
    rewrite append_cons, append_nil_l. cbn [TrimLeft1]. rewrite Ascii.eqb_refl.
    unfold HasSuffix in Hs. change (GoStrings.rev (String q "")) with (String q "") in Hs.
    rewrite (TrimLeft1_keep _ q Hs). apply rev_involutive.
Qed.

Lemma fetchUptime_unavailable base w :
  uptime_unavailable (http_get E (requests w) (uptimeURL base)) ->
  (fetchUptime E base w).1 = "".
Proof.
  unfold fetchUptime, uptimeURL. rewrite bind_run, client_Get_run; simpl.
  intros [H|[(code & body & H & Hc)|H]]; rewrite H; simpl; [reflexivity| |reflexivity].
  destruct (Z.eqb_spec code StatusOK); [contradiction|reflexivity].
Qed.

(** X4.  The uptime fetcher answers the empty string when the endpoint does
    not deliver (transport error, status other than 200, unreadable body).
    On a 200 reply it normalises, at the clock reading taken after the
    request, the [value] field of the decoded JSON object when that is not
    empty, and otherwise the body without its surrounding quotes. *)
Theorem fetchUptime_result base w :
  let reply := http_get E (requests w) (uptimeURL base) in
  let now := time_Now E (requests w ++ [uptimeURL base]) in
  (uptime_unavailable reply -> (fetchUptime E base w).1 = "") /\
  (forall body d,
     reply = Response StatusOK (Some body) ->
     json_uptime E body = Some d -> uptime_Value d <> "" ->
     (fetchUptime E base w).1 = formatUptime now (uptime_Value d)) /\
  (forall s,
     reply = Response StatusOK (Some (String "034" (s +:+ String "034" ""))) ->
     (json_uptime E (String "034" (s +:+ String "034" "")) = None \/
      exists d, json_uptime E (String "034" (s +:+ String "034" "")) = Some d /\
                uptime_Value d = "") ->
     HasPrefix s (String "034" "") = false -> HasSuffix s (String "034" "") = false ->
     (fetchUptime E base w).1 = formatUptime now s).
Proof.
  intros reply now. subst reply now.
  split; [apply fetchUptime_unavailable|].
  unfold fetchUptime, uptimeURL.
  rewrite bind_run, client_Get_run; simpl.
  split.
  - intros body d Hr Hd Hv. rewrite Hr; simpl. rewrite bind_run; simpl.
    rewrite Hd. destruct (String.eqb_spec (uptime_Value d) ""); [contradiction|].
    reflexivity.
  - intros s Hr Hj Hp Hs. rewrite Hr; simpl. rewrite bind_run; simpl.
    rewrite (Trim1_quoted s "034" Hp Hs).
    destruct Hj as [Hj|(d & Hj & Hv)]; rewrite Hj; [reflexivity|].
    rewrite Hv. reflexivity.
Qed.

End UptimeFetcher.

Lemma fetchUptime_result_witness :
  (uptime_unavailable (http_get uptimeDown [] (uptimeURL nasURL)) /\
   (fetchUptime uptimeDown nasURL emptyWorld).1 = "") /\
  (fetchUptime quotedUptime nasURL emptyWorld).1 = "28.6 13:52".
Proof.
  assert (H : uptime_unavailable (http_get uptimeDown [] (uptimeURL nasURL)))
    by (left; reflexivity).
  split; [split; [exact H|]|].
  - exact (proj1 (fetchUptime_result uptimeDown nasURL emptyWorld) H).
  - exact (proj2 (proj2 (fetchUptime_result quotedUptime nasURL emptyWorld))
             "3 days, 3:52:36" eq_refl (or_introl eq_refl) eq_refl eq_refl).
Defined.

Lemma required_fetchers_result_witness :
  http_get healthy [] (cpuURL nasURL) = Response StatusOK (Some "cpu 42") /\
  (fetchCPUUsage healthy nasURL emptyWorld).1 = (true, 42%float) /\
  (fetchMemoryUsage memDown nasURL emptyWorld).1.1 = false /\
  (fetchMemoryUsage memDown nasURL emptyWorld).1.2 = zero.
Proof.
  split; [reflexivity|]. split; [|split; [reflexivity|]].
  - exact (proj1 (proj2 (proj2 (required_fetchers_result healthy nasURL emptyWorld)))
             (Some "cpu 42") {| cpu_Total := 42 |} eq_refl eq_refl).
  - exact (proj1 (proj2 (proj2 (proj2 (proj2
             (required_fetchers_result memDown nasURL emptyWorld))))) eq_refl).
Defined.

Lemma first_entry_used_witness :
  Decode (json_fs healthy) (Some "fs 61") = Some [{| fs_Percent := 61 |}] /\
  (fetchDiskUsage healthy nasURL emptyWorld).1 = (true, 61%float) /\
  (fetchTemperature healthy nasURL emptyWorld).1 = (true, 38%float).
Proof.
  split; [reflexivity|]. split.
  - exact (proj1 (first_entry_used healthy nasURL emptyWorld)
             (Some "fs 61") {| fs_Percent := 61 |} [] eq_refl eq_refl).
  - exact (proj2 (first_entry_used healthy nasURL emptyWorld)
             (Some "temp 38") {| Composite := [{| sensor_Value := 38 |}] |}
             {| sensor_Value := 38 |} [] eq_refl eq_refl eq_refl).
Defined.

(* ------------------------------------------------------------------------- *)
(** ** One iteration: which endpoints are asked, what is written *)

Section IterationFacts.

Variable E : Env.
Implicit Types (server : Server) (w : World) (template : string).

Lemma later_URLs_distinct base :
  Forall (fun u => ~ In u [cpuURL base; uptimeURL base; memURL base])
    [fsURL base; gpuURL base; tempURL base] /\
  Forall (fun u => ~ In u [cpuURL base; uptimeURL base; memURL base; fsURL base])
    [gpuURL base; tempURL base].
Proof.
  unfold cpuURL, uptimeURL, memURL, fsURL, gpuURL, tempURL.
  split; repeat constructor; simpl; intros H;
    repeat (destruct H as [H|H]; [apply append_inj in H; discriminate H|]);
    exact H.
Qed.

(** X5.  When the CPU fetch of a server succeeds and its memory fetch
    answers [ok = false], the iteration has requested the CPU, the uptime
    and the memory endpoint and no other; the filesystem, GPU and
    temperature fetchers did not run; the statements are those of an offline
    outcome, so the uptime just fetched is not stored. *)
Theorem memory_failure_short_circuit template server w :
  monitored server = true ->
  (cpuAnswer E (baseURLOf server) w).1 = true ->
  (memAnswer E (baseURLOf server) w).1 = false ->
  let base := baseURLOf server in
  let w' := (monitorServer E template server w).2 in
  exists requested,
    requests w' = requests w ++ requested /\
    requested = [cpuURL base; uptimeURL base; memURL base] /\
    Forall (fun u => ~ In u requested) [fsURL base; gpuURL base; tempURL base] /\
    statements w' = statements w ++ offlineStatements E (ID server).
Proof.
  intros Hm Hcpu Hmem base w'. subst w'.
  rewrite (monitorServer_mem_failed E template server w Hm Hcpu Hmem).
  fold base.
  destruct (reportOffline_run E server false template
              (withRequests w [cpuURL base; uptimeURL base; memURL base]))
    as (Hr & Hs & _).
  eexists. rewrite Hr, Hs. split; [reflexivity|]. split; [reflexivity|].
  split; [apply later_URLs_distinct|reflexivity].
Qed.

(** X6.  When the CPU and the memory fetch of a server succeed and its
    filesystem fetch answers [ok = false], the iteration has requested the
    CPU, uptime, memory and filesystem endpoint and no other; the GPU and
    temperature fetchers did not run; the statements are those of an offline
    outcome. *)
Theorem disk_failure_short_circuit template server w :
  monitored server = true ->
  (cpuAnswer E (baseURLOf server) w).1 = true ->
  (memAnswer E (baseURLOf server) w).1 = true ->
  (diskAnswer E (baseURLOf server) w).1 = false ->
  let base := baseURLOf server in
  let w' := (monitorServer E template server w).2 in
  exists requested,
    requests w' = requests w ++ requested /\
    requested = [cpuURL base; uptimeURL base; memURL base; fsURL base] /\
    Forall (fun u => ~ In u requested) [gpuURL base; tempURL base] /\
    statements w' = statements w ++ offlineStatements E (ID server).
Proof.
  intros Hm Hcpu Hmem Hdisk base w'. subst w'.
  rewrite (monitorServer_disk_failed E template server w Hm Hcpu Hmem Hdisk).
  fold base.
  destruct (reportOffline_run E server false template
              (withRequests w [cpuURL base; uptimeURL base; memURL base; fsURL base]))
    as (Hr & Hs & _).
  eexists. rewrite Hr, Hs. split; [reflexivity|]. split; [reflexivity|].
  split; [apply later_URLs_distinct|reflexivity].
Qed.

(** X7.  When the three required fetches of a server succeed, the iteration
    requests the six endpoints in the order CPU, uptime, memory, filesystem,
    GPU, temperature, and writes a status row with [online = true] carrying
    the six answers, followed by the history row of the five metrics. *)
Theorem online_probe_complete template server w :
  monitored server = true ->
  probeOnline E (baseURLOf server) w = true ->
  let base := baseURLOf server in
  let w' := (monitorServer E template server w).2 in
  requests w' =
    requests w ++ [cpuURL base; uptimeURL base; memURL base; fsURL base; gpuURL base;
                   tempURL base] /\
  statements w' =
    statements w ++
      [UpdateServer true (cpuAnswer E base w).2 (memAnswer E base w).2
         (diskAnswer E base w).2 (gpuAnswer E base w).2 (tempAnswer E base w).2
         (uptimeAnswer E base w) (ID server);
       InsertServerHistory (ID server) true
         (sprintf_2f E (cpuAnswer E base w).2) (sprintf_2f E (memAnswer E base w).2)
         (sprintf_2f E (diskAnswer E base w).2) (sprintf_2f E (gpuAnswer E base w).2)
         (sprintf_2f E (tempAnswer E base w).2)].
Proof.
  intros Hm Hp base w'. subst w'. unfold probeOnline in Hp. fold base in Hp.
  apply andb_true_iff in Hp as [Hp Hdisk]. apply andb_true_iff in Hp as [Hcpu Hmem].
  rewrite (monitorServer_online E template server w Hm Hcpu Hmem Hdisk). fold base.
  destruct (finishOnline_frame server template (onlineStatements E base w (ID server))
              (withRequests w [cpuURL base; uptimeURL base; memURL base; fsURL base;
                               gpuURL base; tempURL base])) as [Hr Hs].
  now rewrite Hr, Hs.
Qed.

(** X8.  A failing uptime endpoint does not take the host offline: when the
    three required fetches succeed and the uptime endpoint does not deliver,
    the status row written has [online = true] and an empty uptime. *)
Theorem uptime_failure_keeps_online template server w :
  monitored server = true ->
  probeOnline E (baseURLOf server) w = true ->
  let base := baseURLOf server in
  uptime_unavailable (http_get E (requests w ++ [cpuURL base]) (uptimeURL base)) ->
  exists cpu ram disk gpu temp history,
    statements (monitorServer E template server w).2 =
    statements w ++ [UpdateServer true cpu ram disk gpu temp "" (ID server); history].
Proof.
  intros Hm Hp base Hu.
  rewrite monitorServer_statements, Hm. unfold outcomeStatements. rewrite Hp.
  unfold onlineStatements. fold base.
  assert (Hup : uptimeAnswer E base w = "").
  { unfold uptimeAnswer. now apply fetchUptime_unavailable. }
  rewrite Hup. do 6 eexists. reflexivity.
Qed.

End IterationFacts.

Lemma memory_failure_short_circuit_witness :
  monitored (nas true) = true /\
  (cpuAnswer memDown (baseURLOf (nas true)) emptyWorld).1 = true /\
  (memAnswer memDown (baseURLOf (nas true)) emptyWorld).1 = false /\
  exists requested,
    requests (monitorServer memDown defaultTemplate (nas true) emptyWorld).2
      = requests emptyWorld ++ requested /\
    requested = [cpuURL nasURL; uptimeURL nasURL; memURL nasURL] /\
    Forall (fun u => ~ In u requested) [fsURL nasURL; gpuURL nasURL; tempURL nasURL] /\
    statements (monitorServer memDown defaultTemplate (nas true) emptyWorld).2
      = statements emptyWorld ++ offlineStatements memDown 7.
Proof.
  split; [reflexivity|]. split; [reflexivity|]. split; [reflexivity|].
  exact (memory_failure_short_circuit memDown defaultTemplate (nas true) emptyWorld
           eq_refl eq_refl eq_refl).
Defined.

Lemma disk_failure_short_circuit_witness :
  monitored (nas true) = true /\
  (cpuAnswer fsDown (baseURLOf (nas true)) emptyWorld).1 = true /\
  (memAnswer fsDown (baseURLOf (nas true)) emptyWorld).1 = true /\
  (diskAnswer fsDown (baseURLOf (nas true)) emptyWorld).1 = false /\
  exists requested,
    requests (monitorServer fsDown defaultTemplate (nas true) emptyWorld).2
      = requests emptyWorld ++ requested /\
    requested = [cpuURL nasURL; uptimeURL nasURL; memURL nasURL; fsURL nasURL] /\
    Forall (fun u => ~ In u requested) [gpuURL nasURL; tempURL nasURL] /\
    statements (monitorServer fsDown defaultTemplate (nas true) emptyWorld).2
      = statements emptyWorld ++ offlineStatements fsDown 7.
Proof.
  split; [reflexivity|]. split; [reflexivity|]. split; [reflexivity|].
  split; [reflexivity|].
  exact (disk_failure_short_circuit fsDown defaultTemplate (nas true) emptyWorld
           eq_refl eq_refl eq_refl eq_refl).
Defined.

Lemma online_probe_complete_witness :
  monitored (nas true) = true /\
  probeOnline healthy (baseURLOf (nas true)) emptyWorld = true /\
  requests (monitorServer healthy defaultTemplate (nas true) emptyWorld).2 =
    [cpuURL nasURL; uptimeURL nasURL; memURL nasURL; fsURL nasURL; gpuURL nasURL;
     tempURL nasURL] /\
  statements (monitorServer healthy defaultTemplate (nas true) emptyWorld).2 =
    [UpdateServer true 42 55 61 0 38 "1.7 17:39" 7;
     InsertServerHistory 7 true "42.00" "55.00" "61.00" "0.00" "38.00"].
Proof.
  split; [reflexivity|]. split; [reflexivity|].
  exact (online_probe_complete healthy defaultTemplate (nas true) emptyWorld
           eq_refl eq_refl).
Defined.

Lemma uptime_failure_keeps_online_witness :
  monitored (nas true) = true /\
  probeOnline uptimeDown (baseURLOf (nas true)) emptyWorld = true /\
  uptime_unavailable (http_get uptimeDown [cpuURL nasURL] (uptimeURL nasURL)) /\
  exists cpu ram disk gpu temp history,
    statements (monitorServer uptimeDown defaultTemplate (nas true) emptyWorld).2 =
    [UpdateServer true cpu ram disk gpu temp "" 7; history].
Proof.
  assert (H : uptime_unavailable (http_get uptimeDown [cpuURL nasURL] (uptimeURL nasURL)))
    by (left; reflexivity).
  split; [reflexivity|]. split; [reflexivity|]. split; [exact H|].
  exact (uptime_failure_keeps_online uptimeDown defaultTemplate (nas true) emptyWorld
           eq_refl eq_refl H).
Defined.

(* ------------------------------------------------------------------------- *)
(** ** The detector across iterations and cycles *)

Section DetectorFacts.

Variable E : Env.
Implicit Types (server : Server) (w : World) (template : string).

(** What an iteration does to the notifications and to the detector map. *)
Lemma monitorServer_detector template server w :
  monitored server = true ->
  let online := probeOnline E (baseURLOf server) w in
  let w' := (monitorServer E template server w).2 in
  if online && Online server
  then notifications w' = notifications w /\ lastStatus w' = lastStatus w
  else notifications w' = notifications w ++ notificationIfDue server online template w /\
       lastStatus w' = lastStatus (shouldSendNotification (ID server) online w).2.
Proof.
  intros Hm online w'. subst online w'.
  destruct (monitorServer_branch E template server w Hm)
    as [urls [(Hp & _ & Hrun)|(Hp & Hrun)]]; rewrite Hp, Hrun.
  - simpl andb. cbv iota.
    destruct (reportOffline_run E server false template (withRequests w urls))
      as (_ & _ & Hn & Hl).
    rewrite Hn, Hl. split.
    + simpl. f_equal. now apply notificationIfDue_ext.
    + now apply shouldSendNotification_ext.
  - unfold finishOnline. destruct (Online server); simpl.
    + now rewrite app_nil_r.
    + unfold notificationIfDue.
      destruct (shouldSendNotification_frame (ID server) true (withRequests w urls))
        as (_ & _ & Hn & _).
      destruct (shouldSendNotification_ext (ID server) true (withRequests w urls) w
                  eq_refl) as [Hb Hl].
      rewrite <- Hb, <- Hl.
      destruct (shouldSendNotification (ID server) true (withRequests w urls))
        as [notify w1]; simpl in *.
      now rewrite Hn.
Qed.

Lemma shouldSendNotification_same id online w :
  lastStatus w !! id = Some online ->
  shouldSendNotification id online w = (false, w).
Proof.
  intros H. unfold shouldSendNotification. rewrite H.
  now rewrite Bool.eqb_reflx.
Qed.

Lemma monitorServer_recorded_silent template server w :
  monitored server = true ->
  lastStatus w !! ID server = Some (probeOnline E (baseURLOf server) w) ->
  notifications (monitorServer E template server w).2 = notifications w /\
  lastStatus (monitorServer E template server w).2 = lastStatus w.
Proof.
  intros Hm Hrec. pose proof (monitorServer_detector template server w Hm) as H.
  cbv zeta in H.
  destruct (probeOnline E (baseURLOf server) w && Online server); [exact H|].
  destruct H as [Hn Hl]. rewrite Hn, Hl. unfold notificationIfDue.
  rewrite (shouldSendNotification_same _ _ _ Hrec). simpl.
  now rewrite app_nil_r.
Qed.

(** X9.  No repeated notification.  When the detector map already records
    the outcome of the probe for the server, the iteration dispatches
    nothing and leaves the map as it is.  So when two successive iterations
    for the same server id end with the same outcome, and the first one
    consulted the detector, the second one dispatches nothing. *)
Theorem no_repeated_notification template template' server server' w :
  monitored server = true -> monitored server' = true -> ID server' = ID server ->
  let online := probeOnline E (baseURLOf server) w in
  let w1 := (monitorServer E template server w).2 in
  (lastStatus w !! ID server = Some online ->
     notifications w1 = notifications w /\ lastStatus w1 = lastStatus w) /\
  (online && Online server = false ->
   probeOnline E (baseURLOf server') w1 = online ->
     notifications (monitorServer E template' server' w1).2 = notifications w1).
Proof.
  intros Hm Hm' Hid online w1. split.
  - intros Hrec. now apply monitorServer_recorded_silent.
  - intros Hc Hsame.
    apply (monitorServer_recorded_silent template' server' w1 Hm').
    rewrite Hsame, Hid.
    pose proof (monitorServer_detector template server w Hm) as H. cbv zeta in H.
    fold online in H. fold w1 in H. rewrite Hc in H. destruct H as [_ Hl].
    rewrite Hl. apply shouldSendNotification_records.
Qed.

(** One iteration changes the detector map at the id of its server at
    most, and never removes an entry. *)
Lemma monitorServer_map_footprint template server w :
  let w' := (monitorServer E template server w).2 in
  (forall j, (monitored server = true -> ID server <> j) ->
     lastStatus w' !! j = lastStatus w !! j) /\
  (forall j, is_Some (lastStatus w !! j) -> is_Some (lastStatus w' !! j)).
Proof.
  intros w'. subst w'. destruct (monitored server) eqn:Hm.
  2:{ rewrite monitorServer_skipped by assumption. split; auto. }
  pose proof (monitorServer_detector template server w Hm) as H. cbv zeta in H.
  destruct (probeOnline E (baseURLOf server) w && Online server).
  - destruct H as [_ ->]. split; auto.
  - destruct H as [_ ->].
    destruct (shouldSendNotification_frame (ID server)
                (probeOnline E (baseURLOf server) w) w) as (_ & _ & _ & Hf).
    split.
    + intros j Hj. apply Hf. intros Heq. now apply (Hj eq_refl).
    + intros j Hj. destruct (Z.eq_dec j (ID server)) as [->|Hne].
      * rewrite shouldSendNotification_records. eauto.
      * now rewrite Hf.
Qed.

Lemma forEach_map_footprint template servers w :
  let w' := (forEach (monitorServer E template) servers w).2 in
  (forall j, (forall s, In s servers -> monitored s = true -> ID s <> j) ->
     lastStatus w' !! j = lastStatus w !! j) /\
  (forall j, is_Some (lastStatus w !! j) -> is_Some (lastStatus w' !! j)).
Proof.
  revert w. induction servers as [|server rest IH]; intros w; [split; auto|].
  simpl forEach. rewrite bind_run. cbv zeta.
  destruct (IH (monitorServer E template server w).2) as [IH1 IH2].
  destruct (monitorServer_map_footprint template server w) as [H1 H2].
  split.
  - intros j Hj. rewrite IH1.
    + apply H1. intros Hm. apply Hj; [now left|exact Hm].
    + intros s Hs. apply Hj. now right.
  - intros j Hj. apply IH2, H2, Hj.
Qed.

(** X10.  A cycle changes the detector map only at ids of servers of the
    list that are not skipped, and it never removes an entry. *)
Theorem detector_map_footprint servers w :
  let w' := (MonitorServers E servers w).2 in
  (forall j, (forall s, In s servers -> monitored s = true -> ID s <> j) ->
     lastStatus w' !! j = lastStatus w !! j) /\
  (forall j, is_Some (lastStatus w !! j) -> is_Some (lastStatus w' !! j)).
Proof.
  unfold MonitorServers, loadTemplate. rewrite !bind_run.
  set (w1 := (db_Exec SelectNotificationText w).2).
  assert (Hw1 : lastStatus w1 = lastStatus w) by reflexivity.
  rewrite <- Hw1.
  destruct (settings_row E) as [t|]; [destruct (String.eqb t "")|];
    apply forEach_map_footprint.
Qed.

End DetectorFacts.

Lemma no_repeated_notification_witness :
  monitored (nas true) = true /\
  probeOnline dead (baseURLOf (nas true)) emptyWorld && Online (nas true) = false /\
  notifications (monitorServer dead defaultTemplate (nas true) emptyWorld).2
    = ["The server nas is now offline!"] /\
  notifications
    (monitorServer dead defaultTemplate (nas false)
       (monitorServer dead defaultTemplate (nas true) emptyWorld).2).2
    = ["The server nas is now offline!"].
Proof.
  split; [reflexivity|]. split; [reflexivity|]. split; [reflexivity|].
  exact (proj2 (no_repeated_notification dead defaultTemplate defaultTemplate
                  (nas true) (nas false) emptyWorld eq_refl eq_refl eq_refl)
           eq_refl eq_refl).
Defined.

Lemma detector_map_footprint_witness :
  (forall s, In s [spare; nas false] -> monitored s = true -> ID s <> 8) /\
  lastStatus (MonitorServers healthy [spare; nas false] spareKnown).2 !! 8 = Some true.
Proof.
  assert (H : forall s, In s [spare; nas false] -> monitored s = true -> ID s <> 8).
  { intros s [<-|[<-|[]]] Hm; [discriminate Hm|discriminate]. }
  split; [exact H|].
  exact (proj1 (detector_map_footprint healthy [spare; nas false] spareKnown) 8 H).
Defined.

(* ------------------------------------------------------------------------- *)
(** ** A whole cycle: template, notifications, order of the rows *)

Section CycleFacts.

Variable E : Env.
Implicit Types (server : Server) (w : World) (template : string).

Lemma loadTemplate_world w :
  (loadTemplate E w).2 =
  mkWorld (requests w) (statements w ++ [SelectNotificationText]) (notifications w)
    (lastStatus w).
Proof.
  unfold loadTemplate. rewrite bind_run.
  destruct (settings_row E) as [t|]; [destruct (String.eqb t "")|]; reflexivity.
Qed.

(** X11.  The template of a cycle is never empty: it is the stored text
    when the settings query succeeds with a non-empty text, and the default
    text with its two placeholders otherwise; loading it issues the settings
    query and nothing else. *)
Theorem template_never_empty w :
  (loadTemplate E w).1 <> "" /\
  ((settings_row E = None \/ settings_row E = Some "") ->
     (loadTemplate E w).1 = defaultTemplate) /\
  (forall t, settings_row E = Some t -> t <> "" -> (loadTemplate E w).1 = t) /\
  (loadTemplate E w).2 =
    mkWorld (requests w) (statements w ++ [SelectNotificationText]) (notifications w)
      (lastStatus w).
Proof.
  unfold loadTemplate. rewrite bind_run.
  destruct (settings_row E) as [t|]; simpl.
  - destruct (String.eqb_spec t "") as [->|Hne]; simpl.
    + repeat split; try discriminate. intros t' [=<-] H. contradiction.
    + repeat split; auto.
      * intros [H|[=H]]; [discriminate|contradiction].
      * now intros t' [=<-] _.
  - repeat split; try discriminate.
Qed.

Lemma notificationIfDue_shape server online template w :
  notificationIfDue server online template w = [] \/
  notificationIfDue server online template w = [statusMessage (Name server) online template].
Proof. unfold notificationIfDue. destruct (shouldSendNotification _ _ _).1; auto. Qed.

Lemma forEach_notifications template servers w :
  exists msgs,
    notifications (forEach (monitorServer E template) servers w).2
      = notifications w ++ msgs /\
    (length msgs <= countWhere monitored servers)%nat /\
    Forall (fun m => exists s online,
              In s servers /\ monitored s = true /\
              m = statusMessage (Name s) online template) msgs.
Proof.
  revert w. induction servers as [|server rest IH]; intros w.
  - exists []. simpl. rewrite app_nil_r. repeat split; auto.
  - simpl forEach. rewrite bind_run.
    destruct (IH (monitorServer E template server w).2) as (msgs & Hn & Hlen & Hall).
    rewrite Hn, countWhere_cons.
    assert (Hall' : Forall (fun m => exists s online,
              In s (server :: rest) /\ monitored s = true /\
              m = statusMessage (Name s) online template) msgs).
    { eapply Forall_impl; [exact Hall|]. intros m (s & on & Hin & Hm & ->).
      exists s, on. split; [now right|auto]. }
    destruct (monitored server) eqn:Hm.
    + pose proof (monitorServer_detector E template server w Hm) as H. cbv zeta in H.
      destruct (probeOnline E (baseURLOf server) w && Online server).
      * destruct H as [-> _]. exists msgs. split; [reflexivity|]. split; [lia|exact Hall'].
      * destruct H as [-> _]. rewrite <- app_assoc.
        eexists; split; [reflexivity|].
        destruct (notificationIfDue_shape server (probeOnline E (baseURLOf server) w)
                    template w) as [->| ->]; simpl.
        -- split; [lia|exact Hall'].
        -- split; [lia|]. constructor; [|exact Hall'].
           eexists server, _. split; [now left|]. split; [exact Hm|reflexivity].
    + rewrite monitorServer_skipped by assumption. simpl.
      exists msgs. split; [reflexivity|]. split; [lia|exact Hall'].
Qed.

(** X12.  A cycle dispatches at most one notification per server that is
    not skipped, and every message it dispatches is the cycle's template
    filled in for such a server of the list. *)
Theorem notifications_bounded servers w :
  exists msgs,
    notifications (MonitorServers E servers w).2 = notifications w ++ msgs /\
    (length msgs <= countWhere monitored servers)%nat /\
    Forall (fun m => exists s online,
              In s servers /\ monitored s = true /\
              m = statusMessage (Name s) online (loadTemplate E w).1) msgs.
Proof.
  unfold MonitorServers. rewrite bind_run.
  rewrite loadTemplate_world.
  exact (forEach_notifications (loadTemplate E w).1 servers _).
Qed.

Lemma outcomeStatements_rowPair server w :
  exists q, outcomeStatements E server w = rowPair E q /\ updatedId q = Some (ID server).
Proof.
  unfold outcomeStatements, onlineStatements, offlineStatements.
  destruct (probeOnline E (baseURLOf server) w).
  - exists (UpdateServer true (cpuAnswer E (baseURLOf server) w).2
              (memAnswer E (baseURLOf server) w).2 (diskAnswer E (baseURLOf server) w).2
              (gpuAnswer E (baseURLOf server) w).2 (tempAnswer E (baseURLOf server) w).2
              (uptimeAnswer E (baseURLOf server) w) (ID server)).
    split; reflexivity.
  - exists (UpdateServer false zero zero zero zero zero "" (ID server)).
    split; reflexivity.
Qed.

Lemma forEach_rows template servers w :
  exists updates,
    statements (forEach (monitorServer E template) servers w).2
      = statements w ++ flat_map (rowPair E) updates /\
    List.map updatedId updates = List.map (fun s => Some (ID s)) (List.filter monitored servers).
Proof.
  revert w. induction servers as [|server rest IH]; intros w.
  - exists []. simpl. now rewrite app_nil_r.
  - simpl forEach. rewrite bind_run.
    destruct (IH (monitorServer E template server w).2) as (updates & Hs & Hids).
    rewrite Hs, monitorServer_statements, <- app_assoc. simpl List.filter.
    destruct (monitored server) eqn:Hm.
    + destruct (outcomeStatements_rowPair server w) as (q & -> & Hq).
      exists (q :: updates). split; [reflexivity|]. simpl. now rewrite Hq, Hids.
    + exists updates. split; [reflexivity|exact Hids].
Qed.

(** X13.  After the settings query a cycle writes, for the servers that are
    not skipped and in the order of the list, a status row immediately
    followed by its history row: same server id, same online flag, the
    history metrics being the [%.2f] rendering of the status row's. *)
Theorem rows_in_list_order servers w :
  exists updates,
    statements (MonitorServers E servers w).2
      = statements w ++ SelectNotificationText :: flat_map (rowPair E) updates /\
    List.map updatedId updates = List.map (fun s => Some (ID s)) (List.filter monitored servers).
Proof.
  unfold MonitorServers. rewrite bind_run.
  rewrite loadTemplate_world.
  destruct (forEach_rows (loadTemplate E w).1 servers
              (mkWorld (requests w) (statements w ++ [SelectNotificationText])
                 (notifications w) (lastStatus w))) as (updates & Hs & Hids).
  exists updates. rewrite Hs. simpl. now rewrite <- app_assoc.
Qed.

Lemma forEach_all_skipped template servers w :
  (forall s, In s servers -> monitored s = false) ->
  (forEach (monitorServer E template) servers w).2 = w.
Proof.
  induction servers as [|server rest IH]; intros H; [reflexivity|].
  simpl forEach. rewrite bind_run, monitorServer_skipped by (apply H; now left).
  apply IH. intros s Hs. apply H. now right.
Qed.

(** X14.  A cycle over servers that are all skipped (monitoring switched
    off or no monitoring URL), in particular over an empty list, issues the
    settings query and nothing else: no request, no row, no notification, no
    change of the detector map. *)
Theorem idle_cycle servers w :
  (forall s, In s servers -> monitored s = false) ->
  (MonitorServers E servers w).2 =
  mkWorld (requests w) (statements w ++ [SelectNotificationText]) (notifications w)
    (lastStatus w).
Proof.
  intros H. unfold MonitorServers. rewrite bind_run.
  rewrite loadTemplate_world.
  now apply forEach_all_skipped.
Qed.

End CycleFacts.

Lemma template_never_empty_witness :
  (settings_row healthy = None \/ settings_row healthy = Some "") /\
  (loadTemplate healthy emptyWorld).1 = "The server !name is now !status!".
Proof.
  assert (H : settings_row healthy = None \/ settings_row healthy = Some "")
    by (left; reflexivity).
  split; [exact H|].
  exact (proj1 (proj2 (template_never_empty healthy emptyWorld)) H).
Defined.

Lemma idle_cycle_witness :
  (forall s, In s [spare] -> monitored s = false) /\
  (MonitorServers dead [spare] emptyWorld).2 = mkWorld [] [SelectNotificationText] [] ∅.
Proof.
  assert (H : forall s, In s [spare] -> monitored s = false).
  { intros s [<-|[]]. reflexivity. }
  split; [exact H|]. exact (idle_cycle dead [spare] emptyWorld H).
Defined.

(* ------------------------------------------------------------------------- *)
(** ** The uptime normaliser: stability of its results *)

Section UptimeStability.

Lemma formatSince_scan now uptimeStr days timeStr :
  formatSince now uptimeStr days timeStr =
  match scanTimeOfDay days timeStr with
  | Some d => Format_2_1_15_04 (Add now d)
  | None => uptimeStr
  end.
Proof.
  unfold formatSince, scanTimeOfDay.
  destruct (Sscanf timeStr "%d:%d:%d") as [[|h [|m [|s [|x l]]]]|]; reflexivity.
Qed.

(** [formatUptime] is the scan of the text followed by the rendering of the
    instant, or the text itself when the scan fails. *)
Lemma formatUptime_scan now uptimeStr :
  formatUptime now uptimeStr =
  match scanUptime uptimeStr with
  | Some d => Format_2_1_15_04 (Add now d)
  | None => uptimeStr
  end.
Proof.
  unfold formatUptime, scanUptime.
  destruct (Split uptimeStr ", ") as [|part0 [|part1 [|part2 rest]]];
    try reflexivity; try apply formatSince_scan.
  destruct (Sscanf part0 "%d days") as [[|d [|x l]]|];
    try apply formatSince_scan;
    destruct (Sscanf part0 "%d day") as [[|d' [|x' l']]|];
    try apply formatSince_scan; reflexivity.
Qed.

Lemma civil_bounds (days : Z) :
  1 <= fst (civil days) <= 12 /\ 1 <= snd (civil days) <= 31.
Proof.
  unfold civil. cbv zeta.
  pose proof (Z.mod_pos_bound (days + 719468) 146097 ltac:(lia)) as Hdoe.
  set (doe := (days + 719468) mod 146097) in *. clearbody doe.
  assert (Hdoy :
    0 <= doe - (365 * ((doe - doe / 1460 + doe / 36524 - doe / 146096) / 365)
                + ((doe - doe / 1460 + doe / 36524 - doe / 146096) / 365) / 4
                - ((doe - doe / 1460 + doe / 36524 - doe / 146096) / 365) / 100)
      <= 365).
  { Z.div_mod_to_equations; lia. }
  set (doy := doe - _) in *. clearbody doy.
  cbn [fst snd].
  destruct (Z.ltb_spec ((5 * doy + 2) / 153) 10); cbn [fst snd];
    Z.div_mod_to_equations; lia.
Qed.

Lemma appendInt_number (x width : Z) :
  0 <= x < 100 ->
  isNumber (appendInt x width) = true /\ decimal (appendInt x width) = x.
Proof.
  intros Hx. rewrite <- (Z2Nat.id x) by lia.
  assert (Hn : (Z.to_nat x < 100)%nat) by lia.
  set (n := Z.to_nat x) in *. clearbody n. clear Hx.
  unfold appendInt. destruct (Z.ltb width 2);
    do 100 (destruct n as [|n]; [vm_compute; split; reflexivity|]); lia.
Qed.

(** A rendered instant does not scan as an uptime: it has no comma, and its
    day number is followed by a dot where the time of day wants a colon. *)
Lemma scanUptime_rendered (t : Time) : scanUptime (Format_2_1_15_04 t) = None.
Proof.
  unfold Format_2_1_15_04.
  set (loc := unixNano t / Second + location t (unixNano t / Second)).
  pose proof (civil_bounds (loc / 86400)) as [Hm Hd].
  destruct (civil (loc / 86400)) as [month day]. cbn [fst snd] in Hm, Hd.
  pose proof (Z.mod_pos_bound loc 86400 ltac:(lia)) as Hrem.
  set (rem := loc mod 86400) in *. clearbody rem.
  destruct (appendInt_number day 0 ltac:(lia)) as [HA VA].
  destruct (appendInt_number month 0 ltac:(lia)) as [HB _].
  assert (Hh : 0 <= rem / 3600 < 100) by (Z.div_mod_to_equations; lia).
  assert (Hmi : 0 <= rem mod 3600 / 60 < 100) by (Z.div_mod_to_equations; lia).
  destruct (appendInt_number (rem / 3600) 2 Hh) as [HC _].
  destruct (appendInt_number (rem mod 3600 / 60) 2 Hmi) as [HD _].
  set (A := appendInt day 0) in *. set (B := appendInt month 0) in *.
  set (C := appendInt (rem / 3600) 2) in *.
  set (D := appendInt (rem mod 3600 / 60) 2) in *.
  clearbody A B C D.
  unfold scanUptime.
  rewrite Split_no_sep.
  2:{ rewrite !occurs_app.
      rewrite (allDigits_no_comma A), (allDigits_no_comma B), (allDigits_no_comma C),
        (allDigits_no_comma D) by now apply isNumber_allDigits.
      reflexivity. }
  unfold scanTimeOfDay, Sscanf.
  rewrite (doScanf_number ":%d:%d" A ("." +:+ B +:+ " " +:+ C +:+ ":" +:+ D) HA eq_refl).
  - reflexivity.
  - rewrite VA. unfold int64_max. change (2 ^ 63) with 9223372036854775808. lia.
Qed.

(** X15.  [formatUptime] is idempotent: applied to one of its own results,
    at any later clock reading, it returns that result unchanged. *)
Theorem formatUptime_idempotent (now later : Time) (uptimeStr : string) :
  formatUptime later (formatUptime now uptimeStr) = formatUptime now uptimeStr.
Proof.
  rewrite (formatUptime_scan now uptimeStr).
  destruct (scanUptime uptimeStr) as [d|] eqn:Hscan.
  - now rewrite formatUptime_scan, scanUptime_rendered.
  - now rewrite formatUptime_scan, Hscan.
Qed.

Lemma Format_not_empty (t : Time) : Format_2_1_15_04 t <> "".
Proof.
  unfold Format_2_1_15_04. destruct (civil _) as [month day].
  unfold appendInt at 1. destruct ((day <? 10) && (0 <? 2))%Z; discriminate.
Qed.

(** X16.  [formatUptime] returns the empty string for the empty string and
    for no other text. *)
Theorem formatUptime_empty_iff (now : Time) (uptimeStr : string) :
  formatUptime now uptimeStr = "" <-> uptimeStr = "".
Proof.
  split.
  - rewrite formatUptime_scan. destruct (scanUptime uptimeStr); [|auto].
    intros H. now apply Format_not_empty in H.
  - intros ->. reflexivity.
Qed.

End UptimeStability.

(* ------------------------------------------------------------------------- *)
(** ** The message and the base URL *)

Section MessageFacts.

Lemma replace_from_prefix (o : ascii) (old' new p r : string) :
  occurs o p = false ->
  replace_from (String o old') new (p +:+ r) 0
  = p +:+ replace_from (String o old') new r 0.
Proof.
  induction p as [|c p IH]; intros H; [reflexivity|].
  simpl in H. apply orb_false_iff in H as [Hc H].
  rewrite !append_cons. cbn [replace_from HasPrefix].
  rewrite Ascii.eqb_sym, Hc. now rewrite (IH H).
Qed.

Lemma ReplaceAll_absent (o : ascii) (old' new s : string) :
  occurs o s = false -> ReplaceAll s (String o old') new = s.
Proof.
  intros H. unfold ReplaceAll.
  rewrite <- (append_nil_r s) at 1.
  rewrite (replace_from_prefix o old' new s "" H). simpl. apply append_nil_r.
Qed.

(** X17.  A template without the byte [!] is dispatched as it is, whatever
    the server name and the status. *)
Theorem message_verbatim (server : Server) (online : bool) (template : string)
    (w : World) :
  occurs "!" template = false ->
  notifications (sendStatusChangeNotification server online template w).2
  = notifications w ++ [template].
Proof.
  intros H. unfold sendStatusChangeNotification, SendNotifications, statusMessage.
  simpl. rewrite (ReplaceAll_absent "!" "name" (Name server) template H).
  now rewrite (ReplaceAll_absent "!" "status" _ template H).
Qed.

(** X18.  With the default template and a server name without the byte
    [!], the message is [The server <name> is now online!], respectively
    [offline!]. *)
Theorem default_message (name : string) (online : bool) :
  occurs "!" name = false ->
  statusMessage name online defaultTemplate =
  "The server " +:+ name +:+ " is now " +:+ (if online then "online" else "offline")
    +:+ "!".
Proof.
  intros H. unfold statusMessage, defaultTemplate.
  assert (H1 : ReplaceAll "The server !name is now !status!" "!name" name
               = ("The server " +:+ name +:+ " is now ") +:+ "!status!").
  { unfold ReplaceAll.
    change "The server !name is now !status!"
      with ("The server " +:+ "!name is now !status!").
    rewrite (replace_from_prefix "!" "name" name "The server "
               "!name is now !status!" eq_refl).
    rewrite !append_assoc. reflexivity. }
  rewrite H1. unfold ReplaceAll.
  rewrite (replace_from_prefix "!" "status" _ ("The server " +:+ name +:+ " is now ")
             "!status!").
  - rewrite !append_assoc. destruct online; reflexivity.
  - rewrite !occurs_app, H. reflexivity.
Qed.

Lemma string_length_app (a b : string) :
  String.length (a +:+ b) = (String.length a + String.length b)%nat.
Proof. induction a as [|c a IH]; [reflexivity|]. rewrite append_cons. simpl. now rewrite IH. Qed.

Lemma substring_prefix (a b : string) : substring 0 (String.length a) (a +:+ b) = a.
Proof.
  induction a as [|c a IH]; [now destruct b|].
  rewrite append_cons. simpl. now rewrite IH.
Qed.

Lemma TrimSuffix_one_slash (u : string) : TrimSuffix (u +:+ "/") "/" = u.
Proof.
  unfold TrimSuffix, HasSuffix. rewrite rev_app.
  change (GoStrings.rev "/") with "/". rewrite append_cons, append_nil_l.
  cbn [HasPrefix]. simpl Ascii.eqb. cbv iota.
  assert (Hp : HasPrefix (GoStrings.rev u) "" = true) by now destruct (GoStrings.rev u).
  rewrite Hp, string_length_app.
  replace (String.length u + String.length "/" - String.length "/")%nat
    with (String.length u) by (simpl; lia).
  apply substring_prefix.
Qed.

(** X19.  One trailing slash of the monitoring URL is dropped, and only one:
    a URL written with or without a final slash gives the same base URL,
    hence the same six endpoints. *)
Theorem trailing_slash_ignored (server server' : Server) (u : string) :
  NullString_String (MonitoringURL server) = u ->
  NullString_String (MonitoringURL server') = u +:+ "/" ->
  baseURLOf server' = u /\
  (HasSuffix u "/" = false -> baseURLOf server = u).
Proof.
  intros H H'. unfold baseURLOf. rewrite H, H'. split.
  - apply TrimSuffix_one_slash.
  - intros Hs. unfold TrimSuffix. now rewrite Hs.
Qed.

End MessageFacts.

Lemma message_verbatim_witness :
  occurs "!" "A server changed its status." = false /\
  notifications
    (sendStatusChangeNotification (nas true) false "A server changed its status."
       emptyWorld).2
  = ["A server changed its status."].
Proof.
  split; [reflexivity|].
  exact (message_verbatim (nas true) false "A server changed its status." emptyWorld
           eq_refl).
Defined.

Lemma default_message_witness :
  occurs "!" "nas" = false /\
  statusMessage "nas" false defaultTemplate = "The server nas is now offline!".
Proof.
  split; [reflexivity|]. exact (default_message "nas" false eq_refl).
Defined.

Lemma trailing_slash_ignored_witness :
  NullString_String (MonitoringURL nasPlain) = "http://nas:61208" /\
  NullString_String (MonitoringURL (nas true)) = "http://nas:61208" +:+ "/" /\
  HasSuffix "http://nas:61208" "/" = false /\
  baseURLOf (nas true) = "http://nas:61208" /\
  baseURLOf nasPlain = "http://nas:61208".
Proof.
  split; [reflexivity|]. split; [reflexivity|]. split; [reflexivity|].
  destruct (trailing_slash_ignored nasPlain (nas true) "http://nas:61208"
              eq_refl eq_refl) as [H1 H2].
  split; [exact H1|exact (H2 eq_refl)].
Defined.
